(** * TransposeWrapper: pencil transposes over a grid partition

    A shallow embedding of [floatpy/parallel/transpose_wrapper.py].

    The class [TransposeWrapper] caches, at construction, the block
    geometry it reads from a [t3d] grid partition, and offers two methods,
    [transposeToPencil] and [transposeFromPencil], that check the data,
    allocate a working buffer, reshape the data component by component and
    hand every component to one of the partition's six collective
    transposes.

    Python's exceptions are a sum type, the calls the wrapper makes on
    numpy, on the reshaper and on the partition are recorded in a trace
    (a writer monad over an error monad), numpy arrays are a dtype, a shape
    and the elements in Fortran order. *)

From Stdlib Require Import String ZArith List Bool Arith Lia.
Import ListNotations.

Local Open Scope string_scope.
Local Open Scope list_scope.
Local Open Scope Z_scope.

(** ** 32-bit integers

    The geometry is read into [numpy.int32] arrays; arithmetic on them
    wraps around. *)

Definition int32_min : Z := -2147483648.
Definition int32_max : Z := 2147483647.

Definition wrap32 (z : Z) : Z := (z + 2147483648) mod 4294967296 - 2147483648.

Definition in_int32 (z : Z) : Prop := int32_min <= z <= int32_max.

(** [a - 1] on an int32 array. *)
Definition int32_array_pred (a : list Z) : list Z :=
  map (fun z => wrap32 (z - 1)) a.

(** ** Exceptions *)

Inductive exn : Type :=
| RuntimeError (msg : string)
| ValueError (msg : string)
| CollectiveFailure (msg : string).

(** ** The six collective transposes of [t3d] and its twelve queries *)

Inductive t3d_op : Type :=
| transpose_3d_to_x_op | transpose_3d_to_y_op | transpose_3d_to_z_op
| transpose_x_to_3d_op | transpose_y_to_3d_op | transpose_z_to_3d_op.

Inductive t3d_query : Type :=
| q_get_sz3d | q_get_st3d | q_get_en3d
| q_get_szx | q_get_stx | q_get_enx
| q_get_szy | q_get_sty | q_get_eny
| q_get_szz | q_get_stz | q_get_enz.

Inductive dtype : Type :=
| int32 | int64 | float32 | float64 | complex64 | complex128.


Definition dtype_eqb (a b : dtype) : bool :=
  match a, b with
  | int32, int32 | int64, int64 | float32, float32 | float64, float64
  | complex64, complex64 | complex128, complex128 => true
  | _, _ => false
  end.

(** ** Lists as flat Fortran-ordered storage *)

Section Flat.
Context {A : Type}.

(** What an in-place write of [l] leaves in a buffer that held [old]: the
    extent of the buffer is fixed, the values are those written. *)
Definition write_into (old l : list A) : list A :=
  firstn (length old) (l ++ skipn (length l) old).

(** Component [c] of a buffer of components of [n] elements each: in
    Fortran order the trailing axis is the slowest, so the component is a
    contiguous run. *)
Definition get_chunk (n c : nat) (l : list A) : list A :=
  firstn n (skipn (c * n) l).

Definition set_chunk (n c : nat) (new l : list A) : list A :=
  firstn (c * n) l ++ new ++ skipn (c * n + n) l.
End Flat.

Definition prod_shape (sh : list nat) : nat := fold_right Nat.mul 1%nat sh.

(** [shape ++ [1, ...]] up to three axes. *)
Definition pad3 (sh : list nat) : list nat :=
  sh ++ repeat 1%nat (3 - length sh).

Definition all_ones (sh : list nat) : bool := forallb (Nat.eqb 1) sh.

Fixpoint list_nat_eqb (a b : list nat) : bool :=
  match a, b with
  | [], [] => true
  | x :: a', y :: b' => (x =? y)%nat && list_nat_eqb a' b'
  | _, _ => false
  end.

(** ** The model, over any carrier of numbers *)

Section Model.
(** The wrapper moves numbers and never computes with them: the carrier is
    a parameter, with the test [x == 0] that [numpy.isreal] applies to
    imaginary parts. *)
Context {num : Type}.
Variable num_is_zero : num -> bool.

Inductive scalar : Type :=
| SReal (x : num)
| SComplex (x y : num).

(** The contents of freshly allocated memory ([numpy.empty] initialises
    nothing). *)
Variable junk : nat -> scalar.

Record ndarray : Type := mk_ndarray {
  dtype_of : dtype;
  shape : list nat;
  flat : list scalar
}.

Definition ndim (a : ndarray) : nat := length (shape a).

(** An array holds as many elements as its shape says. *)
Definition wf_array (a : ndarray) : Prop :=
  length (flat a) = prod_shape (shape a).

(** [numpy.isreal]: element-wise, [imag == 0]. *)
Definition isreal (s : scalar) : bool :=
  match s with
  | SReal _ => true
  | SComplex _ y => num_is_zero y
  end.

Definition numpy_isreal (a : ndarray) : list bool := map isreal (flat a).

Definition numpy_all (l : list bool) : bool := forallb (fun b => b) l.

(** *** The grid partition ([t3dmod.t3d])

    The queries fill an int32 array of length three; a transpose reads
    its first argument and writes its second in place: it yields the
    values written, or fails. *)
Record GridPartition : Type := mk_GridPartition {
  get_sz3d : Z * Z * Z;
  get_st3d : Z * Z * Z;
  get_en3d : Z * Z * Z;
  get_szx : Z * Z * Z;
  get_stx : Z * Z * Z;
  get_enx : Z * Z * Z;
  get_szy : Z * Z * Z;
  get_sty : Z * Z * Z;
  get_eny : Z * Z * Z;
  get_szz : Z * Z * Z;
  get_stz : Z * Z * Z;
  get_enz : Z * Z * Z;
  transpose_3d_to_x : ndarray -> ndarray -> exn + list scalar;
  transpose_3d_to_y : ndarray -> ndarray -> exn + list scalar;
  transpose_3d_to_z : ndarray -> ndarray -> exn + list scalar;
  transpose_x_to_3d : ndarray -> ndarray -> exn + list scalar;
  transpose_y_to_3d : ndarray -> ndarray -> exn + list scalar;
  transpose_z_to_3d : ndarray -> ndarray -> exn + list scalar
}.

(** The first argument of the constructor is any Python object. *)
Inductive pyobject : Type :=
| T3d (gp : GridPartition)
| NotT3d.

Definition t3d_answer (gp : GridPartition) (q : t3d_query) : Z * Z * Z :=
  match q with
  | q_get_sz3d => get_sz3d gp | q_get_st3d => get_st3d gp
  | q_get_en3d => get_en3d gp
  | q_get_szx => get_szx gp | q_get_stx => get_stx gp
  | q_get_enx => get_enx gp
  | q_get_szy => get_szy gp | q_get_sty => get_sty gp
  | q_get_eny => get_eny gp
  | q_get_szz => get_szz gp | q_get_stz => get_stz gp
  | q_get_enz => get_enz gp
  end.

Definition t3d_primitive (gp : GridPartition) (op : t3d_op)
  : ndarray -> ndarray -> exn + list scalar :=
  match op with
  | transpose_3d_to_x_op => transpose_3d_to_x gp
  | transpose_3d_to_y_op => transpose_3d_to_y gp
  | transpose_3d_to_z_op => transpose_3d_to_z gp
  | transpose_x_to_3d_op => transpose_x_to_3d gp
  | transpose_y_to_3d_op => transpose_y_to_3d gp
  | transpose_z_to_3d_op => transpose_z_to_3d gp
  end.

(** *** Calls seen from outside the wrapper *)

Inductive event : Type :=
| Query (q : t3d_query)
| Alloc (sh : list Z) (dt : dtype)
| ReshapeTo3d (a : ndarray) (component_idx : option nat)
| Transpose (op : t3d_op) (src : ndarray) (slot : option nat)
| ReshapeFrom3d (a : ndarray).

Definition M (A : Type) : Type := list event * (exn + A).

Definition ret {A} (a : A) : M A := ([], inr a).

Definition raise {A} (e : exn) : M A := ([], inl e).

Definition bind {A B} (m : M A) (k : A -> M B) : M B :=
  match m with
  | (t, inl e) => (t, inl e)
  | (t, inr a) => let '(t', r) := k a in (t ++ t', r)
  end.

Definition trace_of {A} (m : M A) : list event := fst m.
Definition outcome {A} (m : M A) : exn + A := snd m.

(** [call ev r]: a call to a collaborator, recorded, with its result. *)
Definition call {A} (ev : event) (r : exn + A) : M A := ([ev], r).

(** [for ic in range(n)] over a loop-carried value. *)
Fixpoint for_each {S} (l : list nat) (body : nat -> S -> M S) (s : S)
  : M S :=
  match l with
  | [] => ret s
  | ic :: l' => bind (body ic s) (for_each l' body)
  end.

Definition for_range {S} (n : nat) (body : nat -> S -> M S) (s : S)
  : M S :=
  for_each (seq 0 n) body s.
End Model.

Arguments ndarray : clear implicits.
Arguments scalar : clear implicits.
Arguments GridPartition : clear implicits.
Arguments pyobject : clear implicits.
Arguments event : clear implicits.
Arguments M : clear implicits.
Arguments NotT3d {num}.

Declare Scope py_scope.
Notation "x <- c ;; k" := (bind c (fun x => k))
  (at level 61, c at next level, right associativity) : py_scope.

Local Open Scope py_scope.

Section Wrapper.
Context {num : Type}.
Variable num_is_zero : num -> bool.
Variable junk : nat -> scalar num.

Local Abbreviation ndarray := (ndarray num).
Local Abbreviation GridPartition := (GridPartition num).
Local Abbreviation M := (M num).

(** *** numpy.empty

    [numpy.empty(shape, dtype=dt, order='F')]: numpy refuses a negative
    extent; the memory is not initialised. *)
Definition uninitialised (sh : list nat) (dt : dtype) : ndarray :=
  mk_ndarray dt sh (map junk (seq 0 (prod_shape sh))).

Definition numpy_empty (sh : list Z) (dt : dtype) : M ndarray :=
  call (Alloc sh dt)
    (if existsb (fun z => z <? 0) sh
     then inl (ValueError "negative dimensions are not allowed")
     else inr (uninitialised (map Z.to_nat sh) dt)).

(** *** The data reshaper ([floatpy.utilities.data_reshaper]) *)

Record DataReshaper : Type := mk_DataReshaper { reshaper_dim : Z }.

(** Modelled from the spec: [DataReshaper.reshapeTo3d] is not among the
    sources.  It "extracts the 3-D (or 2-D padded to 3-D) slice for one
    component in the array's native element order": without a component
    index the array has [dim] axes and is viewed with unit axes appended
    up to three; with a component index it has [dim + 1] axes and the
    view is that of the component, a contiguous run in Fortran order.
    The spec leaves an array of any other number of axes "a contract
    violation" that "may fail"; it does here. *)
Definition reshapeTo3d_model (r : DataReshaper) (data : ndarray)
    (component_idx : option nat) : exn + ndarray :=
  let d := Z.to_nat (reshaper_dim r) in
  match component_idx with
  | None =>
      if (ndim data =? d)%nat
      then inr (mk_ndarray (dtype_of data) (pad3 (shape data)) (flat data))
      else inl (RuntimeError "Dimension of data is invalid!")
  | Some ic =>
      if (ndim data =? d + 1)%nat
      then
        if (ic <? nth d (shape data) 0)%nat
        then
          let sh := firstn d (shape data) in
          inr (mk_ndarray (dtype_of data) (pad3 sh)
                 (get_chunk (prod_shape sh) ic (flat data)))
        else inl (RuntimeError "Component index is invalid!")
      else inl (RuntimeError "Dimension of data is invalid!")
  end.

(** Modelled from the spec: [DataReshaper.reshapeFrom3d] is not among the
    sources.  It is the "inverse, reconstructing the original logical
    shape including the component axis when applicable": the working
    view has three axes, or four with the components last; the unit axes
    beyond [dim] are collapsed and the component axis is kept.  The
    elements are untouched. *)
Definition reshapeFrom3d_model (r : DataReshaper) (data : ndarray)
  : exn + ndarray :=
  let d := Z.to_nat (reshaper_dim r) in
  let sh3 := firstn 3 (shape data) in
  if ((ndim data =? 3) || (ndim data =? 4))%nat
  then
    if all_ones (skipn d sh3)
    then inr (mk_ndarray (dtype_of data)
                (firstn d sh3 ++ skipn 3 (shape data)) (flat data))
    else inl (RuntimeError "Data cannot be reshaped!")
  else inl (RuntimeError "Dimension of data is invalid!").

Definition reshapeTo3d (r : DataReshaper) (data : ndarray)
    (component_idx : option nat) : M ndarray :=
  call (ReshapeTo3d data component_idx)
    (reshapeTo3d_model r data component_idx).

Definition reshapeFrom3d (r : DataReshaper) (data : ndarray) : M ndarray :=
  call (ReshapeFrom3d data) (reshapeFrom3d_model r data).

(** *** Calls on the partition *)

Definition t3d_get (gp : GridPartition) (q : t3d_query) : M (list Z) :=
  call (Query q) (inr (let '(a, b, c) := t3d_answer gp q in [a; b; c])).

(** [data_to_transpose[:, :, :, ic]]: the view of one component of the
    working buffer. *)
Definition component_view (buf : ndarray) (ic : nat) : ndarray :=
  let sh := firstn 3 (shape buf) in
  mk_ndarray (dtype_of buf) sh (get_chunk (prod_shape sh) ic (flat buf)).

(** A transpose into the whole buffer. *)
Definition t3d_transpose (gp : GridPartition) (op : t3d_op)
    (src dst : ndarray) : M ndarray :=
  call (Transpose op src None)
    (match t3d_primitive gp op src dst with
     | inl e => inl e
     | inr l => inr (mk_ndarray (dtype_of dst) (shape dst)
                       (write_into (flat dst) l))
     end).

(** A transpose into component [ic] of the buffer. *)
Definition t3d_transpose_slot (gp : GridPartition) (op : t3d_op)
    (src buf : ndarray) (ic : nat) : M ndarray :=
  let dst := component_view buf ic in
  call (Transpose op src (Some ic))
    (match t3d_primitive gp op src dst with
     | inl e => inl e
     | inr l =>
         inr (mk_ndarray (dtype_of buf) (shape buf)
                (set_chunk (prod_shape (shape dst)) ic
                   (write_into (flat dst) l) (flat buf)))
     end).

(** *** The class *)

Record TransposeWrapper : Type := mk_TransposeWrapper {
  _grid_partition : GridPartition;
  _dim : Z;
  _direction : Z;
  _3d_size : list Z;
  _3d_lo : list Z;
  _3d_hi : list Z;
  _pencil_size : list Z;
  _pencil_lo : list Z;
  _pencil_hi : list Z;
  _data_reshaper : DataReshaper
}.

(** [numpy.empty(n, dtype=numpy.int32)]: the array a query of the
    partition is to fill.  The query writes every entry ([t3d_get] gives
    the array as filled), so what the fresh array held is not kept. *)
Definition numpy_empty_int32 (n : Z) : M unit :=
  call (Alloc [n] int32) (inr tt).

(** [__init__(self, grid_partition, direction, dimension=3)] *)
Definition __init__ (grid_partition : pyobject num) (direction : Z)
    (dimension : Z) : M TransposeWrapper :=
  match grid_partition with
  | NotT3d =>
      raise (RuntimeError
        "The given grid partition object is not an instance of the t3d class!")
  | T3d gp =>
      if (direction <? 0) || (direction >? 2)
      then raise (RuntimeError "Direction < 0 or > 2 is invalid!")
      else if (dimension <? 2) || (dimension >? 3)
      then raise (RuntimeError
        "Only data with dimension of 2 or 3 can be transposed!")
      else if direction >=? dimension
      then raise (RuntimeError
        "Direction to transpose is not allowed with the dimensinality of data!")
      else
        size3 <- numpy_empty_int32 3 ;;
        lo3 <- numpy_empty_int32 3 ;;
        hi3 <- numpy_empty_int32 3 ;;
        size3 <- t3d_get gp q_get_sz3d ;;
        lo3 <- t3d_get gp q_get_st3d ;;
        hi3 <- t3d_get gp q_get_en3d ;;
        let lo3 := int32_array_pred lo3 in
        let hi3 := int32_array_pred hi3 in
        psize <- numpy_empty_int32 3 ;;
        plo <- numpy_empty_int32 3 ;;
        phi <- numpy_empty_int32 3 ;;
        pencil <-
          (if direction =? 0 then
             s <- t3d_get gp q_get_szx ;;
             l <- t3d_get gp q_get_stx ;;
             h <- t3d_get gp q_get_enx ;;
             ret (s, l, h)
           else if direction =? 1 then
             s <- t3d_get gp q_get_szy ;;
             l <- t3d_get gp q_get_sty ;;
             h <- t3d_get gp q_get_eny ;;
             ret (s, l, h)
           else
             s <- t3d_get gp q_get_szz ;;
             l <- t3d_get gp q_get_stz ;;
             h <- t3d_get gp q_get_enz ;;
             ret (s, l, h)) ;;
        let '(psize, plo, phi) := pencil in
        let plo := int32_array_pred plo in
        let phi := int32_array_pred phi in
        ret (mk_TransposeWrapper gp dimension direction
               size3 lo3 hi3 psize plo phi (mk_DataReshaper dimension))
  end.

Definition default_dimension : Z := 3.

(** [self._pencil_lo[0:self._dim]] and the like. *)
Definition upto_dim (self : TransposeWrapper) {A} (l : list A) : list A :=
  firstn (Z.to_nat (_dim self)) l.

(** The property [full_pencil]. *)
Definition full_pencil (self : TransposeWrapper) : list Z * list Z :=
  (upto_dim self (_pencil_lo self), upto_dim self (_pencil_hi self)).

(** The property [full_pencil_size]. *)
Definition full_pencil_size (self : TransposeWrapper) : list Z :=
  upto_dim self (_pencil_size self).

(** [num_components]: 1, or the extent of the axis after the first
    [self._dim] when there is exactly one such axis. *)
Definition num_components_of (self : TransposeWrapper) (data : ndarray)
  : nat :=
  if Z.of_nat (ndim data) =? _dim self + 1
  then nth (Z.to_nat (_dim self)) (shape data) 0%nat
  else 1%nat.

Definition complex_data_error : exn :=
  ValueError "The given data is complex! Only real data can be transposed.".

(** [transposeToPencil(self, data)].  The local [shape_3d] of the source
    is computed and never read; it has no counterpart here. *)
Definition transposeToPencil (self : TransposeWrapper) (data : ndarray)
  : M ndarray :=
  if negb (numpy_all (numpy_isreal num_is_zero data))
  then raise complex_data_error
  else
    let num_components := num_components_of self data in
    if (num_components =? 1)%nat
    then
      data_to_transpose <-
        numpy_empty (_pencil_size self) (dtype_of data) ;;
      data_3d <- reshapeTo3d (_data_reshaper self) data None ;;
      data_to_transpose <-
        (if _direction self =? 0 then
           t3d_transpose (_grid_partition self) transpose_3d_to_x_op
             data_3d data_to_transpose
         else if _direction self =? 1 then
           t3d_transpose (_grid_partition self) transpose_3d_to_y_op
             data_3d data_to_transpose
         else
           t3d_transpose (_grid_partition self) transpose_3d_to_z_op
             data_3d data_to_transpose) ;;
      reshapeFrom3d (_data_reshaper self) data_to_transpose
    else
      data_to_transpose <-
        numpy_empty (_pencil_size self ++ [Z.of_nat num_components])
          (dtype_of data) ;;
      data_to_transpose <-
        for_range num_components (fun ic data_to_transpose =>
          data_3d <- reshapeTo3d (_data_reshaper self) data (Some ic) ;;
          if _direction self =? 0 then
            t3d_transpose_slot (_grid_partition self) transpose_3d_to_x_op
              data_3d data_to_transpose ic
          else if _direction self =? 1 then
            t3d_transpose_slot (_grid_partition self) transpose_3d_to_y_op
              data_3d data_to_transpose ic
          else
            t3d_transpose_slot (_grid_partition self) transpose_3d_to_z_op
              data_3d data_to_transpose ic) data_to_transpose ;;
      reshapeFrom3d (_data_reshaper self) data_to_transpose.

(** [transposeFromPencil(self, data)].  The local [shape_pencil] of the
    source is computed and never read. *)
Definition transposeFromPencil (self : TransposeWrapper) (data : ndarray)
  : M ndarray :=
  if negb (numpy_all (numpy_isreal num_is_zero data))
  then raise complex_data_error
  else
    let num_components := num_components_of self data in
    if (num_components =? 1)%nat
    then
      data_to_transpose <- numpy_empty (_3d_size self) (dtype_of data) ;;
      data_pencil <- reshapeTo3d (_data_reshaper self) data None ;;
      data_to_transpose <-
        (if _direction self =? 0 then
           t3d_transpose (_grid_partition self) transpose_x_to_3d_op
             data_pencil data_to_transpose
         else if _direction self =? 1 then
           t3d_transpose (_grid_partition self) transpose_y_to_3d_op
             data_pencil data_to_transpose
         else
           t3d_transpose (_grid_partition self) transpose_z_to_3d_op
             data_pencil data_to_transpose) ;;
      reshapeFrom3d (_data_reshaper self) data_to_transpose
    else
      data_to_transpose <-
        numpy_empty (_3d_size self ++ [Z.of_nat num_components])
          (dtype_of data) ;;
      data_to_transpose <-
        for_range num_components (fun ic data_to_transpose =>
          data_pencil <- reshapeTo3d (_data_reshaper self) data (Some ic) ;;
          if _direction self =? 0 then
            t3d_transpose_slot (_grid_partition self) transpose_x_to_3d_op
              data_pencil data_to_transpose ic
          else if _direction self =? 1 then
            t3d_transpose_slot (_grid_partition self) transpose_y_to_3d_op
              data_pencil data_to_transpose ic
          else
            t3d_transpose_slot (_grid_partition self) transpose_z_to_3d_op
              data_pencil data_to_transpose ic) data_to_transpose ;;
      reshapeFrom3d (_data_reshaper self) data_to_transpose.
End Wrapper.

Arguments TransposeWrapper : clear implicits.

(** ** What the two methods share

    [transposeToPencil] and [transposeFromPencil] differ in the cached size
    that shapes the working buffer and in the family of transposes they
    call.  [exchange] is their common body after the realness check; the
    lemmas [transposeToPencil_exchange] and [transposeFromPencil_exchange]
    below relate it to the two methods. *)

Section Exchange.
Context {num : Type}.
Variable num_is_zero : num -> bool.
Variable junk : nat -> scalar num.

Definition to_pencil_op (direction : Z) : t3d_op :=
  if direction =? 0 then transpose_3d_to_x_op
  else if direction =? 1 then transpose_3d_to_y_op
  else transpose_3d_to_z_op.

Definition from_pencil_op (direction : Z) : t3d_op :=
  if direction =? 0 then transpose_x_to_3d_op
  else if direction =? 1 then transpose_y_to_3d_op
  else transpose_z_to_3d_op.

Definition exchange_step (self : TransposeWrapper num) (op : t3d_op)
    (data : ndarray num) (ic : nat) (buf : ndarray num)
  : M num (ndarray num) :=
  data_3d <- reshapeTo3d (_data_reshaper self) data (Some ic) ;;
  t3d_transpose_slot (_grid_partition self) op data_3d buf ic.

Definition exchange (self : TransposeWrapper num) (size : list Z)
    (op : t3d_op) (data : ndarray num) : M num (ndarray num) :=
  let num_components := num_components_of self data in
  if (num_components =? 1)%nat
  then
    buf <- numpy_empty junk size (dtype_of data) ;;
    data_3d <- reshapeTo3d (_data_reshaper self) data None ;;
    buf <- t3d_transpose (_grid_partition self) op data_3d buf ;;
    reshapeFrom3d (_data_reshaper self) buf
  else
    buf <- numpy_empty junk (size ++ [Z.of_nat num_components])
             (dtype_of data) ;;
    buf <- for_range num_components (exchange_step self op data) buf ;;
    reshapeFrom3d (_data_reshaper self) buf.

(** All elements real, as the two methods test it. *)
Definition all_real (a : ndarray num) : Prop :=
  numpy_all (numpy_isreal num_is_zero a) = true.

(** The buffer [dst] after a transpose wrote [l] into it. *)
Definition filled (dst : ndarray num) (l : list (scalar num))
  : ndarray num :=
  mk_ndarray (dtype_of dst) (shape dst) (write_into (flat dst) l).

(** The three-dimensional view of component [ic] of [data] that the
    reshaper hands to the transpose. *)
Definition component_3d (d : nat) (data : ndarray num) (ic : nat)
  : ndarray num :=
  let sh := firstn d (shape data) in
  mk_ndarray (dtype_of data) (pad3 sh)
    (get_chunk (prod_shape sh) ic (flat data)).

(** The three-dimensional view of single-component [data]. *)
Definition whole_3d (data : ndarray num) : ndarray num :=
  mk_ndarray (dtype_of data) (pad3 (shape data)) (flat data).

(** The transpose [op] of [src] into [dst] returned and left [result] in
    [dst]. *)
Definition produced_by (gp : GridPartition num) (op : t3d_op)
    (src dst : ndarray num) (result : list (scalar num)) : Prop :=
  exists lw,
    t3d_primitive gp op src dst = inr lw /\
    result = write_into (flat dst) lw.

(** The calls to the partition's transposes, in the order made. *)
Fixpoint transposes (tr : list (event num)) : list (event num) :=
  match tr with
  | [] => []
  | Transpose op src slot :: tr' => Transpose op src slot :: transposes tr'
  | _ :: tr' => transposes tr'
  end.

(** A pair of transposes that are mutually inverse redistributions
    between blocks of shape [natural] and blocks of shape [pencil]: what
    the first makes of a real block is real, and the second gives the
    block back. *)
Record inverse_redistributions (gp : GridPartition num)
    (forth back : t3d_op) (natural pencil : list nat) : Prop := {
  forth_real : forall src dst l,
    shape src = natural -> wf_array src ->
    shape dst = pencil -> wf_array dst ->
    all_real src ->
    t3d_primitive gp forth src dst = inr l ->
    all_real (filled dst l);
  back_undoes : forall src dst l dst',
    shape src = natural -> wf_array src ->
    shape dst = pencil -> wf_array dst ->
    shape dst' = natural -> wf_array dst' ->
    t3d_primitive gp forth src dst = inr l ->
    exists l',
      t3d_primitive gp back (filled dst l) dst' = inr l' /\
      write_into (flat dst') l' = flat src
}.

(** One-based bounds that agree with the size, in int32. *)
Definition consistent_bounds (sz st en : Z) : Prop :=
  in_int32 st /\ in_int32 en /\ 1 <= st /\ 0 <= sz /\ en = st + sz - 1.

Definition consistent_block (sz st en : Z * Z * Z) : Prop :=
  let '(sz0, sz1, sz2) := sz in
  let '(st0, st1, st2) := st in
  let '(en0, en1, en2) := en in
  consistent_bounds sz0 st0 en0 /\
  consistent_bounds sz1 st1 en1 /\
  consistent_bounds sz2 st2 en2.

Definition consistent_pencils (gp : GridPartition num) : Prop :=
  consistent_block (get_szx gp) (get_stx gp) (get_enx gp) /\
  consistent_block (get_szy gp) (get_sty gp) (get_eny gp) /\
  consistent_block (get_szz gp) (get_stz gp) (get_enz gp).

(** [hi - lo + 1], component by component. *)
Fixpoint extent (lo hi : list Z) : list Z :=
  match lo, hi with
  | l :: lo', h :: hi' => (h - l + 1) :: extent lo' hi'
  | _, _ => []
  end.


Definition is_transpose_of (op : t3d_op) (ev : event num) : Prop :=
  match ev with
  | Transpose op' _ _ => op' = op
  | _ => True
  end.


(** The queries [__init__] makes for the pencils of a direction: their
    size, their first and their last index. *)
Definition size_query (direction : Z) : t3d_query :=
  if direction =? 0 then q_get_szx
  else if direction =? 1 then q_get_szy else q_get_szz.

Definition start_query (direction : Z) : t3d_query :=
  if direction =? 0 then q_get_stx
  else if direction =? 1 then q_get_sty else q_get_stz.

Definition end_query (direction : Z) : t3d_query :=
  if direction =? 0 then q_get_enx
  else if direction =? 1 then q_get_eny else q_get_enz.

(** The int32 array a query fills. *)
Definition answer_list (gp : GridPartition num) (q : t3d_query) : list Z :=
  let '(a, b, c) := t3d_answer gp q in [a; b; c].

(** An int32 from which 1 can be subtracted without wrapping. *)
Definition has_int32_pred (z : Z) : Prop := int32_min < z <= int32_max.

(** The array of one component of [data]: its first [d] axes, and the
    contiguous run of the component. *)
Definition component_array (d : nat) (data : ndarray num) (ic : nat)
  : ndarray num :=
  let sh := firstn d (shape data) in
  mk_ndarray (dtype_of data) sh (get_chunk (prod_shape sh) ic (flat data)).

(** A transpose that overwrites its destination: on well-formed arrays
    it fills the destination, and what it writes does not depend on what
    the destination held. *)
Definition overwrites (gp : GridPartition num) (op : t3d_op) : Prop :=
  forall src dst l,
    wf_array src -> wf_array dst ->
    t3d_primitive gp op src dst = inr l ->
    length l = length (flat dst) /\
    forall dst', wf_array dst' ->
      dtype_of dst' = dtype_of dst -> shape dst' = shape dst ->
      t3d_primitive gp op src dst' = inr l.

(** The call recorded as [ev] failed with [e]. *)
Definition event_failed (gp : GridPartition num) (r : DataReshaper)
    (ev : event num) (e : exn) : Prop :=
  match ev with
  | Query _ => False
  | Alloc _ _ => e = ValueError "negative dimensions are not allowed"
  | ReshapeTo3d a idx => reshapeTo3d_model r a idx = inl e
  | Transpose op src _ => exists dst, t3d_primitive gp op src dst = inl e
  | ReshapeFrom3d a => reshapeFrom3d_model r a = inl e
  end.

(** A call a method may make on [data] of [C] components: no query of
    the partition, the reshaper on [data] itself, component indices and
    slots below [C]. *)
Definition method_event (data : ndarray num) (C : nat) (ev : event num)
  : Prop :=
  match ev with
  | Query _ => False
  | Alloc _ _ => True
  | ReshapeTo3d a idx =>
      a = data /\
      match idx with None => True | Some ic => (ic < C)%nat end
  | Transpose _ _ slot =>
      match slot with None => True | Some ic => (ic < C)%nat end
  | ReshapeFrom3d _ => True
  end.

Definition is_query (ev : event num) : Prop :=
  match ev with Query _ => True | _ => False end.

(** A transpose that returns on well-formed blocks of the given extents. *)
Definition returns_on (gp : GridPartition num) (op : t3d_op)
    (source destination : list nat) : Prop :=
  forall src dst,
    shape src = source -> wf_array src ->
    shape dst = destination -> wf_array dst ->
    exists l, t3d_primitive gp op src dst = inr l.

(** [data] has the shape of the block of size [size]: its first [d] axes
    are those of the block (whose axes beyond [d] are unit axes), and it
    has either no further axis or one axis of components, of an extent
    other than 1. *)
Definition has_block_shape (d : nat) (size : list Z) (data : ndarray num)
  : Prop :=
  size = map Z.of_nat (pad3 (firstn d (shape data))) /\
  (ndim data = d \/
   (ndim data = d + 1 /\ nth d (shape data) 0 <> 1)%nat).

(** A cached size [numpy.empty] accepts and whose axes beyond [d] are unit
    axes. *)
Definition fits (d : nat) (size : list Z) : Prop :=
  Forall (fun z => 0 <= z) size /\
  all_ones (skipn d (map Z.to_nat size)) = true.

(** *** Calls one after the other *)







End Exchange.

(** ** Concrete partitions and data *)

Module Examples.

(** A transpose of a run on one process: the block is copied, provided
    source and destination have the same extents. *)
Definition copy_block {num} (src dst : ndarray num)
  : exn + list (scalar num) :=
  if list_nat_eqb (shape src) (shape dst)
  then inr (flat src)
  else inl (CollectiveFailure "array extents do not match the decomposition").

(** The partition of an [n]-point grid over a single process: the block
    and the three pencils are the whole grid. *)
Definition single_process {num} (n : Z * Z * Z) : GridPartition num :=
  mk_GridPartition
    n (1, 1, 1) n
    n (1, 1, 1) n
    n (1, 1, 1) n
    n (1, 1, 1) n
    copy_block copy_block copy_block copy_block copy_block copy_block.

Definition no_peers {num} (src dst : ndarray num)
  : exn + list (scalar num) :=
  inl (CollectiveFailure "the other processes are not running").

(** The geometry process 1 of a 2 x 2 process grid sees for a grid of
    8 x 8 x 8 points; its peers are absent, no transpose completes. *)
Definition quadrant {num} : GridPartition num :=
  mk_GridPartition
    (4, 4, 8) (5, 1, 1) (8, 4, 8)
    (8, 2, 8) (1, 3, 1) (8, 4, 8)
    (4, 8, 4) (5, 1, 1) (8, 8, 4)
    (4, 4, 8) (5, 1, 1) (8, 4, 8)
    no_peers no_peers no_peers no_peers no_peers no_peers.

Definition is_zero (z : Z) : bool := z =? 0.

Definition zeros (i : nat) : scalar Z := SReal 0.

(** Real data [start, start + 1, ...] of the given shape. *)
Definition arange (dt : dtype) (sh : list nat) (start : Z) : ndarray Z :=
  mk_ndarray dt sh
    (map (fun i => SReal (start + Z.of_nat i)) (seq 0 (prod_shape sh))).

(** Complex data [start + 0j, start + 1 + 0j, ...]. *)
Definition carange (sh : list nat) (start : Z) : ndarray Z :=
  mk_ndarray complex128 sh
    (map (fun i => SComplex (start + Z.of_nat i) 0)
       (seq 0 (prod_shape sh))).

(** [1j] in the last place of otherwise real data. *)
Definition with_imaginary_unit (sh : list nat) : ndarray Z :=
  mk_ndarray complex128 sh
    (map (fun i => SComplex (Z.of_nat i) 0) (seq 0 (prod_shape sh - 1))
     ++ [SComplex 0 1]).

(** The two methods over integers, with zeroed fresh memory. *)
Definition toPencil := transposeToPencil is_zero zeros.
Definition fromPencil := transposeFromPencil is_zero zeros.

(** The wrapper a successful construction returns. *)
Definition constructed (gp : GridPartition Z) (direction dimension : Z)
  : option (TransposeWrapper Z) :=
  match outcome (__init__ (T3d gp) direction dimension) with
  | inr self => Some self
  | inl _ => None
  end.

Definition x_pencils_3d : TransposeWrapper Z :=
  match constructed (single_process (4, 4, 4)) 0 3 with
  | Some self => self
  | None => mk_TransposeWrapper (single_process (4, 4, 4)) 3 0
              [] [] [] [] [] [] (mk_DataReshaper 3)
  end.

Definition y_pencils_2d : TransposeWrapper Z :=
  match constructed (single_process (3, 2, 1)) 1 2 with
  | Some self => self
  | None => mk_TransposeWrapper (single_process (3, 2, 1)) 2 1
              [] [] [] [] [] [] (mk_DataReshaper 2)
  end.

Definition quadrant_y_pencils : TransposeWrapper Z :=
  match constructed quadrant 1 3 with
  | Some self => self
  | None => mk_TransposeWrapper quadrant 3 1
              [] [] [] [] [] [] (mk_DataReshaper 3)
  end.

(** A transpose that reverses the block it moves; it is its own inverse. *)
Definition reverse_block {num} (src dst : ndarray num)
  : exn + list (scalar num) :=
  if list_nat_eqb (shape src) (shape dst)
  then inr (rev (flat src))
  else inl (CollectiveFailure "array extents do not match the decomposition").

(** A single process whose transposes in x reverse the block. *)
Definition mirrored_process {num} (n : Z * Z * Z) : GridPartition num :=
  mk_GridPartition
    n (1, 1, 1) n
    n (1, 1, 1) n
    n (1, 1, 1) n
    n (1, 1, 1) n
    reverse_block copy_block copy_block reverse_block copy_block copy_block.

Definition mirrored_x_pencils : TransposeWrapper Z :=
  match constructed (mirrored_process (2, 2, 1)) 0 2 with
  | Some self => self
  | None => mk_TransposeWrapper (mirrored_process (2, 2, 1)) 2 0
              [] [] [] [] [] [] (mk_DataReshaper 2)
  end.

(** Fresh memory that holds something else than zeros. *)
Definition sevens (i : nat) : scalar Z := SReal 7.

(** A transpose between blocks of different extents that hold as many
    points: the points arrive in the order they were sent. *)
Definition refill_block {num} (src dst : ndarray num)
  : exn + list (scalar num) :=
  if (prod_shape (shape src) =? prod_shape (shape dst))%nat
  then inr (flat src)
  else inl (CollectiveFailure "array extents do not match the decomposition").

(** The geometry of one of two processes that share a grid of 4 x 4
    points: a natural block of 2 x 4 points, x pencils of 4 x 2. *)
Definition slab_process {num} : GridPartition num :=
  mk_GridPartition
    (2, 4, 1) (1, 1, 1) (2, 4, 1)
    (4, 2, 1) (1, 1, 1) (4, 2, 1)
    (2, 4, 1) (1, 1, 1) (2, 4, 1)
    (2, 4, 1) (1, 1, 1) (2, 4, 1)
    refill_block refill_block refill_block
    refill_block refill_block refill_block.

Definition slab_x_pencils : TransposeWrapper Z :=
  match constructed slab_process 0 2 with
  | Some self => self
  | None => mk_TransposeWrapper slab_process 2 0
              [] [] [] [] [] [] (mk_DataReshaper 2)
  end.



End Examples.

(** * Properties *)

Section Properties.
Context {num : Type}.
Variable num_is_zero : num -> bool.
Variable junk : nat -> scalar num.

Local Abbreviation ndarray := (ndarray num).
Local Abbreviation toPencil := (transposeToPencil num_is_zero junk).
Local Abbreviation fromPencil := (transposeFromPencil num_is_zero junk).

(** Case analysis on the twelve answers of a partition. *)
Ltac destruct_geometry gp :=
  unfold t3d_get, t3d_answer in *;
  destruct (get_sz3d gp) as [[? ?] ?] eqn:?,
    (get_st3d gp) as [[? ?] ?], (get_en3d gp) as [[? ?] ?],
    (get_szx gp) as [[? ?] ?], (get_stx gp) as [[? ?] ?],
    (get_enx gp) as [[? ?] ?],
    (get_szy gp) as [[? ?] ?], (get_sty gp) as [[? ?] ?],
    (get_eny gp) as [[? ?] ?],
    (get_szz gp) as [[? ?] ?], (get_stz gp) as [[? ?] ?],
    (get_enz gp) as [[? ?] ?].

(** ** Arithmetic of the cached bounds *)

Lemma wrap32_in_range z : in_int32 z -> wrap32 z = z.
Proof.
  unfold in_int32, int32_min, int32_max, wrap32. intros H.
  rewrite Z.mod_small; lia.
Qed.

Lemma consistent_bounds_extent sz st en :
  consistent_bounds sz st en ->
  wrap32 (en - 1) - wrap32 (st - 1) + 1 = sz.
Proof.
  unfold consistent_bounds, in_int32, int32_min, int32_max.
  intros (Hst & Hen & H1 & H0 & He).
  rewrite !wrap32_in_range;
    unfold in_int32, int32_min, int32_max; lia.
Qed.

(** Below a one-based bound the subtraction wraps: hence [1 <= st] in
    [consistent_bounds]. *)
Lemma int32_pred_wraps : wrap32 (int32_min - 1) = int32_max.
Proof. reflexivity. Qed.

(** ** The two methods and their common body *)

Lemma transposeToPencil_exchange self data :
  toPencil self data =
  if negb (numpy_all (numpy_isreal num_is_zero data))
  then raise complex_data_error
  else exchange junk self (_pencil_size self)
         (to_pencil_op (_direction self)) data.
Proof.
  unfold transposeToPencil, exchange, exchange_step, to_pencil_op.
  destruct (_direction self =? 0), (_direction self =? 1); reflexivity.
Qed.

Lemma transposeFromPencil_exchange self data :
  fromPencil self data =
  if negb (numpy_all (numpy_isreal num_is_zero data))
  then raise complex_data_error
  else exchange junk self (_3d_size self)
         (from_pencil_op (_direction self)) data.
Proof.
  unfold transposeFromPencil, exchange, exchange_step, from_pencil_op.
  destruct (_direction self =? 0), (_direction self =? 1); reflexivity.
Qed.

(** ** Construction *)

(** C4. A direction outside [0, dimension) or a dimension other than 2
    and 3 makes the constructor raise a [RuntimeError]: no wrapper is
    returned, and the trace is empty: the partition was neither queried
    nor asked to transpose anything. *)
Theorem illegal_configuration_rejected
    (grid_partition : pyobject num) (direction dimension : Z) :
  ~ (0 <= direction < dimension) \/ ~ (dimension = 2 \/ dimension = 3) ->
  exists msg,
    __init__ grid_partition direction dimension
    = ([], inl (RuntimeError msg)).
Proof.
  intros H. unfold __init__.
  destruct grid_partition as [gp|]; [|eexists; reflexivity].
  destruct ((direction <? 0) || (direction >? 2)) eqn:Hd;
    [eexists; reflexivity|].
  destruct ((dimension <? 2) || (dimension >? 3)) eqn:Hm;
    [eexists; reflexivity|].
  destruct (direction >=? dimension) eqn:Hg; [eexists; reflexivity|].
  exfalso.
  apply orb_false_iff in Hd as [Hd1 Hd2].
  apply orb_false_iff in Hm as [Hm1 Hm2].
  lia.
Qed.

(** What a successful construction has checked and cached. *)
Lemma init_success (gp : GridPartition num) direction dimension tr self :
  __init__ (T3d gp) direction dimension = (tr, inr self) ->
  (dimension = 2 \/ dimension = 3) /\ 0 <= direction < dimension /\
  _grid_partition self = gp /\ _dim self = dimension /\
  _direction self = direction /\
  _data_reshaper self = mk_DataReshaper dimension /\
  (exists a b c, _3d_size self = [a; b; c] /\ get_sz3d gp = (a, b, c)) /\
  (exists a b c, _pencil_size self = [a; b; c]) /\
  tr = [Alloc [3] int32; Alloc [3] int32; Alloc [3] int32;
        Query q_get_sz3d; Query q_get_st3d; Query q_get_en3d;
        Alloc [3] int32; Alloc [3] int32; Alloc [3] int32] ++
       map Query
         (if direction =? 0 then [q_get_szx; q_get_stx; q_get_enx]
          else if direction =? 1 then [q_get_szy; q_get_sty; q_get_eny]
          else [q_get_szz; q_get_stz; q_get_enz]).
Proof.
  unfold __init__.
  destruct ((direction <? 0) || (direction >? 2)) eqn:Hd;
    [discriminate|].
  destruct ((dimension <? 2) || (dimension >? 3)) eqn:Hm;
    [discriminate|].
  destruct (direction >=? dimension) eqn:Hg; [discriminate|].
  apply orb_false_iff in Hd as [Hd1 Hd2].
  apply orb_false_iff in Hm as [Hm1 Hm2].
  intros H. destruct_geometry gp.
  destruct (direction =? 0) eqn:H0; [|destruct (direction =? 1) eqn:H1];
    cbn in H;
    injection H as <- <-; cbn;
    (split; [lia|]); (split; [lia|]);
    repeat (split; [reflexivity|]);
    (split; [do 3 eexists; split; reflexivity|]);
    (split; [do 3 eexists; reflexivity|]); reflexivity.
Qed.

Lemma consistent_bounds_pred sz st en :
  consistent_bounds sz st en ->
  wrap32 (st - 1) = Z.pred st /\ wrap32 (en - 1) = Z.pred en /\
  Z.pred en - Z.pred st + 1 = sz.
Proof.
  unfold consistent_bounds, in_int32, int32_min, int32_max, Z.pred.
  intros (Hst & Hen & H1 & H0 & He).
  rewrite !wrap32_in_range;
    unfold in_int32, int32_min, int32_max; lia.
Qed.

(** C6. For a partition whose pencils have one-based bounds that agree
    with their sizes ([en = st + sz - 1]): [full_pencil] returns the first
    and the last index the partition gave for the pencils of the
    configured direction, each less one (the one subtraction made at
    construction), cut to the first [dimension] axes; [full_pencil_size]
    returns the size the partition gave, cut likewise, so that it has
    [dimension] entries; and on every axis [hi - lo + 1] is the size. *)
Theorem bounds_consistency
    (gp : GridPartition num) (direction dimension : Z)
    (tr : list (event num)) (self : TransposeWrapper num) :
  __init__ (T3d gp) direction dimension = (tr, inr self) ->
  consistent_pencils gp ->
  let d := Z.to_nat dimension in
  full_pencil self
  = (firstn d (map Z.pred (answer_list gp (start_query direction))),
     firstn d (map Z.pred (answer_list gp (end_query direction)))) /\
  full_pencil_size self
  = firstn d (answer_list gp (size_query direction)) /\
  length (full_pencil_size self) = d /\
  extent (fst (full_pencil self)) (snd (full_pencil self))
  = full_pencil_size self.
Proof.
  unfold __init__, size_query, start_query, end_query, answer_list.
  destruct ((direction <? 0) || (direction >? 2)) eqn:Hd;
    [discriminate|].
  destruct ((dimension <? 2) || (dimension >? 3)) eqn:Hm;
    [discriminate|].
  destruct (direction >=? dimension) eqn:Hg; [discriminate|].
  apply orb_false_iff in Hm as [Hm1 Hm2].
  intros H (Hx & Hy & Hz).
  assert (Hdim : dimension = 2 \/ dimension = 3) by lia.
  unfold consistent_block in Hx, Hy, Hz.
  destruct_geometry gp.
  destruct Hx as (Hx0 & Hx1 & Hx2), Hy as (Hy0 & Hy1 & Hy2),
    Hz as (Hz0 & Hz1 & Hz2).
  apply consistent_bounds_pred in Hx0, Hx1, Hx2, Hy0, Hy1, Hy2,
    Hz0, Hz1, Hz2.
  destruct Hx0 as (Hx0l & Hx0h & Hx0e), Hx1 as (Hx1l & Hx1h & Hx1e),
    Hx2 as (Hx2l & Hx2h & Hx2e), Hy0 as (Hy0l & Hy0h & Hy0e),
    Hy1 as (Hy1l & Hy1h & Hy1e), Hy2 as (Hy2l & Hy2h & Hy2e),
    Hz0 as (Hz0l & Hz0h & Hz0e), Hz1 as (Hz1l & Hz1h & Hz1e),
    Hz2 as (Hz2l & Hz2h & Hz2e).
  destruct (direction =? 0); [|destruct (direction =? 1)];
    cbn in H; injection H as <- <-; cbv zeta;
    unfold full_pencil, full_pencil_size, upto_dim;
    cbn [_dim _pencil_lo _pencil_hi _pencil_size int32_array_pred map
         fst snd];
    rewrite ?Hx0l, ?Hx0h, ?Hx1l, ?Hx1h, ?Hx2l, ?Hx2h,
      ?Hy0l, ?Hy0h, ?Hy1l, ?Hy1h, ?Hy2l, ?Hy2h,
      ?Hz0l, ?Hz0h, ?Hz1l, ?Hz1h, ?Hz2l, ?Hz2h;
    destruct Hdim as [-> | ->];
    change (Z.to_nat 2) with 2%nat; change (Z.to_nat 3) with 3%nat;
    (split; [reflexivity|]); (split; [reflexivity|]);
    (split; [reflexivity|]);
    cbn [firstn extent]; congruence.
Qed.

(** ** Components of a flat buffer *)

Section Chunks.
Context {A : Type}.
Implicit Types (l new old : list A) (n c : nat).
Local Open Scope nat_scope.

Lemma length_write_into old l : length (write_into old l) = length old.
Proof.
  unfold write_into.
  rewrite length_firstn, length_app, length_skipn. lia.
Qed.

Lemma write_into_full old l :
  length l = length old -> write_into old l = l.
Proof.
  intros H. unfold write_into.
  rewrite skipn_all2 by lia. rewrite app_nil_r.
  apply firstn_all2. lia.
Qed.

Lemma length_get_chunk n c l :
  c * n + n <= length l -> length (get_chunk n c l) = n.
Proof.
  intros H. unfold get_chunk.
  rewrite length_firstn, length_skipn. lia.
Qed.

Lemma length_set_chunk n c new l :
  length new = n -> c * n + n <= length l ->
  length (set_chunk n c new l) = length l.
Proof.
  intros Hn H. unfold set_chunk.
  rewrite !length_app, length_firstn, length_skipn. lia.
Qed.

Lemma get_set_chunk_same n c new l :
  length new = n -> c * n + n <= length l ->
  get_chunk n c (set_chunk n c new l) = new.
Proof.
  intros Hn H. unfold get_chunk, set_chunk.
  rewrite skipn_app, length_firstn.
  replace (Nat.min (c * n) (length l)) with (c * n) by lia.
  rewrite skipn_all2 by (rewrite length_firstn; lia).
  rewrite Nat.sub_diag. cbn [skipn app].
  rewrite firstn_app, firstn_all2 by lia.
  replace (n - length new) with 0 by lia.
  cbn [firstn]. apply app_nil_r.
Qed.

Lemma get_set_chunk_other n c c' new l :
  c' <> c -> length new = n -> c * n + n <= length l ->
  get_chunk n c' (set_chunk n c new l) = get_chunk n c' l.
Proof.
  intros Hne Hn H. unfold get_chunk, set_chunk.
  destruct (Nat.lt_ge_cases c' c) as [Hlt | Hge].
  - assert (Hle : c' * n + n <= c * n) by nia.
    rewrite skipn_app, length_firstn.
    replace (Nat.min (c * n) (length l)) with (c * n) by lia.
    replace (c' * n - c * n) with 0 by lia. cbn [skipn].
    rewrite firstn_app, length_skipn, length_firstn.
    replace (n - (Nat.min (c * n) (length l) - c' * n)) with 0 by lia.
    cbn [firstn]. rewrite app_nil_r.
    rewrite skipn_firstn_comm, firstn_firstn.
    f_equal. lia.
  - assert (Hle : c * n + n <= c' * n) by nia.
    rewrite app_assoc.
    rewrite skipn_app, length_app, length_firstn.
    replace (Nat.min (c * n) (length l)) with (c * n) by lia.
    rewrite skipn_all2 by (rewrite length_app, length_firstn; lia).
    cbn [app]. rewrite skipn_skipn.
    do 2 f_equal. lia.
Qed.

(** Buffers with the same components are the same. *)
Lemma chunks_ext n C l l' :
  length l = n * C -> length l' = n * C ->
  (forall c, c < C -> get_chunk n c l = get_chunk n c l') ->
  l = l'.
Proof.
  revert l l'. induction C as [|C IH]; intros l l' Hl Hl' H.
  - rewrite Nat.mul_0_r in *.
    destruct l, l'; try discriminate; reflexivity.
  - rewrite <- (firstn_skipn (n * C) l), <- (firstn_skipn (n * C) l').
    f_equal.
    + apply IH.
      * rewrite length_firstn. nia.
      * rewrite length_firstn. nia.
      * intros c Hc. specialize (H c (Nat.lt_lt_succ_r _ _ Hc)).
        unfold get_chunk in *.
        assert (c * n + n <= n * C) by nia.
        rewrite !skipn_firstn_comm, !firstn_firstn.
        replace (Nat.min n (n * C - c * n)) with n by lia.
        exact H.
    + specialize (H C (Nat.lt_succ_diag_r C)).
      unfold get_chunk in H.
      replace (C * n) with (n * C) in H by lia.
      rewrite !firstn_all2 in H by (rewrite length_skipn; nia).
      exact H.
Qed.

Lemma get_chunk_whole n l :
  length l = n -> get_chunk n 0 l = l.
Proof.
  intros H. unfold get_chunk. cbn [Nat.mul skipn].
  apply firstn_all2. lia.
Qed.
End Chunks.

(** ** Shapes *)

Section Shapes.
Local Open Scope nat_scope.

Lemma prod_shape_app a b :
  prod_shape (a ++ b) = prod_shape a * prod_shape b.
Proof.
  unfold prod_shape.
  induction a as [|x a IH]; simpl.
  - lia.
  - rewrite IH. lia.
Qed.

Lemma all_ones_repeat sh :
  all_ones sh = true -> sh = repeat 1 (length sh).
Proof.
  unfold all_ones.
  induction sh as [|x sh IH]; cbn [forallb length repeat];
    [reflexivity|].
  intros H. apply andb_true_iff in H as [Hx Hs].
  apply Nat.eqb_eq in Hx. subst x. f_equal. auto.
Qed.

Lemma all_ones_of_repeat k : all_ones (repeat 1 k) = true.
Proof. unfold all_ones. induction k; cbn [forallb repeat]; auto. Qed.

Lemma prod_shape_ones sh : all_ones sh = true -> prod_shape sh = 1.
Proof.
  unfold all_ones, prod_shape.
  induction sh as [|x sh IH]; cbn [forallb fold_right]; [reflexivity|].
  intros H. apply andb_true_iff in H as [Hx Hs].
  apply Nat.eqb_eq in Hx. subst x. rewrite IH by assumption. lia.
Qed.

Lemma prod_shape_firstn d sh :
  all_ones (skipn d sh) = true ->
  prod_shape (firstn d sh) = prod_shape sh.
Proof.
  intros H. rewrite <- (firstn_skipn d sh) at 2.
  rewrite prod_shape_app, (prod_shape_ones _ H). lia.
Qed.

Lemma pad3_firstn d sh :
  length sh = 3 -> d <= 3 -> all_ones (skipn d sh) = true ->
  pad3 (firstn d sh) = sh.
Proof.
  intros Hl Hd H. unfold pad3.
  rewrite length_firstn.
  replace (3 - Nat.min d (length sh)) with (length (skipn d sh))
    by (rewrite length_skipn; lia).
  rewrite <- (all_ones_repeat _ H). apply firstn_skipn.
Qed.

Lemma length_pad3 sh : length sh <= 3 -> length (pad3 sh) = 3.
Proof.
  intros H. unfold pad3. rewrite length_app, repeat_length. lia.
Qed.

Lemma firstn_pad3 sh : firstn (length sh) (pad3 sh) = sh.
Proof.
  unfold pad3. rewrite firstn_app, Nat.sub_diag, firstn_all.
  cbn [firstn]. apply app_nil_r.
Qed.

Lemma skipn_pad3 sh :
  skipn (length sh) (pad3 sh) = repeat 1 (3 - length sh).
Proof.
  unfold pad3. rewrite skipn_app, Nat.sub_diag, skipn_all.
  reflexivity.
Qed.

Lemma prod_shape_pad3 sh : prod_shape (pad3 sh) = prod_shape sh.
Proof.
  unfold pad3. rewrite prod_shape_app.
  rewrite (prod_shape_ones _ (all_ones_of_repeat _)). lia.
Qed.
End Shapes.

(** ** The trace monad *)

Lemma bind_success {A B} (m : M num A) (k : A -> M num B) tr b :
  bind m k = (tr, inr b) ->
  exists t1 a t2, m = (t1, inr a) /\ k a = (t2, inr b) /\ tr = t1 ++ t2.
Proof.
  unfold bind. destruct m as [t1 [e|a]]; [discriminate|].
  destruct (k a) as [t2 r] eqn:Hk. intros H. injection H as <- ->.
  exists t1, a, t2. auto.
Qed.

Lemma bind_call_trace {A B} ev (r : exn + A) (k : A -> M num B) :
  exists tr, trace_of (bind (call ev r) k) = ev :: tr.
Proof.
  unfold bind, call. destruct r as [e|a].
  - exists []. reflexivity.
  - destruct (k a) as [t r']. exists t. reflexivity.
Qed.

Lemma trace_bind_Forall {A B} (P : event num -> Prop)
    (m : M num A) (k : A -> M num B) :
  Forall P (trace_of m) ->
  (forall a, Forall P (trace_of (k a))) ->
  Forall P (trace_of (bind m k)).
Proof.
  unfold bind. destruct m as [t [e|a]]; cbn; intros Hm Hk; [exact Hm|].
  specialize (Hk a). destruct (k a) as [t' r]. cbn in *.
  apply Forall_app. auto.
Qed.

Lemma trace_for_each_Forall {S} (P : event num -> Prop)
    (body : nat -> S -> M num S) l s :
  (forall ic s', Forall P (trace_of (body ic s'))) ->
  Forall P (trace_of (for_each l body s)).
Proof.
  intros Hb. revert s. induction l as [|ic l IH]; intros s; cbn.
  - constructor.
  - apply trace_bind_Forall; auto.
Qed.

(** ** Realness *)

Lemma not_all_real_of_complex (data : ndarray) s :
  In s (flat data) -> isreal num_is_zero s = false ->
  numpy_all (numpy_isreal num_is_zero data) = false.
Proof.
  unfold numpy_all, numpy_isreal. intros Hin Hs.
  apply not_true_is_false. intros Hall.
  rewrite forallb_forall in Hall.
  specialize (Hall (isreal num_is_zero s) (in_map _ _ _ Hin)).
  congruence.
Qed.


(** C3. Data with an element whose imaginary part is not zero makes both
    methods raise the [ValueError] of the realness check, with an empty
    trace: no buffer was allocated, no transpose was called, and nothing
    is returned. *)
Theorem complex_input_rejected
    (self : TransposeWrapper num) (data : ndarray) (x y : num) :
  In (SComplex x y) (flat data) ->
  num_is_zero y = false ->
  toPencil self data = ([], inl complex_data_error) /\
  fromPencil self data = ([], inl complex_data_error).
Proof.
  intros Hin Hy.
  assert (H : numpy_all (numpy_isreal num_is_zero data) = false)
    by (eapply not_all_real_of_complex; [exact Hin | exact Hy]).
  unfold transposeToPencil, transposeFromPencil.
  rewrite H. split; reflexivity.
Qed.

(** ** The first call of an accepted input *)

Lemma exchange_allocates self size op (data : ndarray) :
  exists tr,
    trace_of (exchange junk self size op data)
    = Alloc (if (num_components_of self data =? 1)%nat then size
             else size ++ [Z.of_nat (num_components_of self data)])
        (dtype_of data) :: tr.
Proof.
  unfold exchange, numpy_empty.
  destruct (num_components_of self data =? 1)%nat;
    apply bind_call_trace.
Qed.


(** ** The single-component path *)

Lemma no_negative_extent (size : list Z) :
  Forall (fun z => 0 <= z) size -> existsb (fun z => z <? 0) size = false.
Proof.
  intros H. apply not_true_is_false. intros Hex.
  apply existsb_exists in Hex as (z & Hz & Hneg).
  rewrite Forall_forall in H. specialize (H z Hz). lia.
Qed.



(** ** The transposes a call makes *)

Lemma exchange_transposes self size op (data : ndarray) :
  Forall (is_transpose_of op) (trace_of (exchange junk self size op data)).
Proof.
  unfold exchange.
  destruct (num_components_of self data =? 1)%nat.
  - apply trace_bind_Forall; [repeat constructor|]. intros buf.
    apply trace_bind_Forall; [repeat constructor|]. intros d3.
    apply trace_bind_Forall; [repeat constructor|]. intros buf'.
    repeat constructor.
  - apply trace_bind_Forall; [repeat constructor|]. intros buf.
    apply trace_bind_Forall; [|intros; repeat constructor].
    apply trace_for_each_Forall. intros ic s. unfold exchange_step.
    apply trace_bind_Forall; [repeat constructor|]. intros d3.
    repeat constructor.
Qed.

(** ** Where the errors of a call come from *)










(** ** Calls that return *)

Lemma numpy_empty_success sh dt tr (buf : ndarray) :
  numpy_empty junk sh dt = (tr, inr buf) ->
  tr = [Alloc sh dt] /\ Forall (fun z => 0 <= z) sh /\
  buf = uninitialised junk (map Z.to_nat sh) dt.
Proof.
  unfold numpy_empty, call.
  destruct (existsb (fun z => z <? 0) sh) eqn:Hneg; intros H;
    [discriminate|].
  injection H as <- <-. split; [reflexivity|]. split; [|reflexivity].
  apply Forall_forall. intros z Hz.
  destruct (Z.ltb_spec z 0) as [Hlt|]; [|assumption].
  exfalso. apply not_true_iff_false in Hneg. apply Hneg.
  apply existsb_exists. exists z. split; [assumption|].
  apply Z.ltb_lt. assumption.
Qed.

Lemma numpy_empty_value sh dt :
  Forall (fun z => 0 <= z) sh ->
  numpy_empty junk sh dt
  = ([Alloc sh dt], inr (uninitialised junk (map Z.to_nat sh) dt)).
Proof.
  intros H. unfold numpy_empty, call.
  rewrite (no_negative_extent _ H). reflexivity.
Qed.

Lemma wf_uninitialised sh dt : wf_array (uninitialised junk sh dt).
Proof.
  unfold wf_array, uninitialised. cbn [flat shape].
  rewrite length_map, length_seq. reflexivity.
Qed.

Lemma reshapeTo3d_model_component r (data : ndarray) ic out :
  reshapeTo3d_model r data (Some ic) = inr out ->
  let d := Z.to_nat (reshaper_dim r) in
  (ndim data = d + 1 /\ ic < nth d (shape data) 0)%nat /\
  out = component_3d d data ic.
Proof.
  unfold reshapeTo3d_model. cbv zeta.
  destruct (ndim data =? _)%nat eqn:Hn; [|discriminate].
  destruct (ic <? _)%nat eqn:Hic; [|discriminate].
  intros H. injection H as <-.
  apply Nat.eqb_eq in Hn. apply Nat.ltb_lt in Hic.
  repeat split; assumption.
Qed.

Lemma reshapeTo3d_model_component_value r (data : ndarray) ic :
  let d := Z.to_nat (reshaper_dim r) in
  (ndim data = d + 1)%nat -> (ic < nth d (shape data) 0)%nat ->
  reshapeTo3d_model r data (Some ic) = inr (component_3d d data ic).
Proof.
  cbv zeta. intros Hn Hic. unfold reshapeTo3d_model.
  apply Nat.eqb_eq in Hn. apply Nat.ltb_lt in Hic.
  rewrite Hn, Hic. reflexivity.
Qed.

(** The buffer after the transpose of component [ic] wrote [l]. *)
Lemma exchange_step_success self op (data : ndarray) ic buf tr buf' :
  exchange_step self op data ic buf = (tr, inr buf') ->
  let d := Z.to_nat (reshaper_dim (_data_reshaper self)) in
  let n := prod_shape (firstn 3 (shape buf)) in
  (ndim data = d + 1 /\ ic < nth d (shape data) 0)%nat /\
  tr = [ReshapeTo3d data (Some ic);
        Transpose op (component_3d d data ic) (Some ic)] /\
  exists l,
    t3d_primitive (_grid_partition self) op (component_3d d data ic)
      (component_view buf ic) = inr l /\
    buf' = mk_ndarray (dtype_of buf) (shape buf)
             (set_chunk n ic (write_into (get_chunk n ic (flat buf)) l)
                (flat buf)).
Proof.
  unfold exchange_step, reshapeTo3d, t3d_transpose_slot, call, bind.
  destruct (reshapeTo3d_model _ data (Some ic)) as [e|d3] eqn:Hr;
    [discriminate|].
  apply reshapeTo3d_model_component in Hr as [Hr ->].
  destruct (t3d_primitive _ op _ (component_view buf ic)) as [e|l] eqn:Hp;
    [discriminate|].
  intros H. injection H as <- <-. cbv zeta.
  split; [exact Hr|]. split; [reflexivity|].
  exists l. split; reflexivity.
Qed.

Lemma exchange_step_value self op (data : ndarray) ic buf l :
  let d := Z.to_nat (reshaper_dim (_data_reshaper self)) in
  let n := prod_shape (firstn 3 (shape buf)) in
  (ndim data = d + 1)%nat -> (ic < nth d (shape data) 0)%nat ->
  t3d_primitive (_grid_partition self) op (component_3d d data ic)
    (component_view buf ic) = inr l ->
  exchange_step self op data ic buf
  = ([ReshapeTo3d data (Some ic);
      Transpose op (component_3d d data ic) (Some ic)],
     inr (mk_ndarray (dtype_of buf) (shape buf)
            (set_chunk n ic (write_into (get_chunk n ic (flat buf)) l)
               (flat buf)))).
Proof.
  cbv zeta. intros Hn Hic Hp.
  unfold exchange_step, reshapeTo3d, t3d_transpose_slot, call, bind.
  rewrite (reshapeTo3d_model_component_value _ _ _ Hn Hic), Hp.
  reflexivity.
Qed.

(** ** The loop over the components *)

Lemma component_view_set_other (buf : ndarray) c c' new :
  let n := prod_shape (firstn 3 (shape buf)) in
  c' <> c -> length new = n -> (c * n + n <= length (flat buf))%nat ->
  component_view
    (mk_ndarray (dtype_of buf) (shape buf) (set_chunk n c new (flat buf)))
    c'
  = component_view buf c'.
Proof.
  cbv zeta. intros Hne Hn Hle. unfold component_view. cbn [dtype_of shape flat].
  rewrite get_set_chunk_other by assumption. reflexivity.
Qed.

Lemma transposes_app (t1 t2 : list (event num)) :
  transposes (t1 ++ t2) = transposes t1 ++ transposes t2.
Proof.
  induction t1 as [|ev t1 IH]; [reflexivity|].
  destruct ev; cbn; rewrite ?IH; reflexivity.
Qed.

Lemma components_loop_success self op (data : ndarray) l :
  forall buf tr buf',
  let d := Z.to_nat (reshaper_dim (_data_reshaper self)) in
  let n := prod_shape (firstn 3 (shape buf)) in
  NoDup l ->
  (forall c, In c l -> (c * n + n <= length (flat buf))%nat) ->
  for_each l (exchange_step self op data) buf = (tr, inr buf') ->
  dtype_of buf' = dtype_of buf /\ shape buf' = shape buf /\
  length (flat buf') = length (flat buf) /\
  transposes tr
  = map (fun c => Transpose op (component_3d d data c) (Some c)) l /\
  (forall c, In c l ->
     (ndim data = d + 1 /\ c < nth d (shape data) 0)%nat /\
     exists lw,
       t3d_primitive (_grid_partition self) op (component_3d d data c)
         (component_view buf c) = inr lw /\
       get_chunk n c (flat buf')
       = write_into (get_chunk n c (flat buf)) lw) /\
  (forall c, ~ In c l ->
     get_chunk n c (flat buf') = get_chunk n c (flat buf)).
Proof.
  induction l as [|ic l IH]; intros buf tr buf' d n Hnd Hle H.
  - cbn in H. injection H as <- <-.
    do 4 (split; [reflexivity|]).
    split; [intros c []|reflexivity].
  - cbn [for_each] in H.
    apply bind_success in H as (t1 & buf1 & t2 & Hstep & Hrest & ->).
    apply exchange_step_success in Hstep as (Hdata & -> & lw & Hp & ->).
    fold d in Hdata, Hp. fold n in Hp |- *.
    inversion Hnd as [|? ? Hnotin Hnd']; subst.
    assert (Hic : (ic * n + n <= length (flat buf))%nat)
      by (apply Hle; left; reflexivity).
    assert (Hnew : length (write_into (get_chunk n ic (flat buf)) lw) = n)
      by (rewrite length_write_into; apply length_get_chunk; exact Hic).
    apply IH in Hrest; [|exact Hnd'|].
    2:{ intros c Hc. cbn [shape flat]. fold n.
        rewrite length_set_chunk by assumption.
        apply Hle. right. exact Hc. }
    cbn [dtype_of shape flat] in Hrest. fold d n in Hrest.
    destruct Hrest as (Hdt & Hsh & Hlen & Htr & Hin & Hout).
    rewrite length_set_chunk in Hlen by assumption.
    split; [exact Hdt|]. split; [exact Hsh|]. split; [exact Hlen|].
    split; [|split].
    + rewrite transposes_app, Htr. reflexivity.
    + intros c [<- | Hc].
      * split; [exact Hdata|]. exists lw. split; [exact Hp|].
        rewrite (Hout ic Hnotin).
        apply get_set_chunk_same; assumption.
      * destruct (Hin c Hc) as (Hcd & lw' & Hp' & Hchunk).
        assert (Hne : c <> ic) by (intros ->; contradiction).
        split; [exact Hcd|]. exists lw'.
        rewrite <- (component_view_set_other buf ic c
                      (write_into (get_chunk n ic (flat buf)) lw))
          by assumption.
        split; [exact Hp'|].
        rewrite Hchunk. f_equal.
        apply get_set_chunk_other; assumption.
    + intros c Hc.
      assert (Hne : c <> ic) by (intros ->; apply Hc; left; reflexivity).
      rewrite Hout by (intros Hc'; apply Hc; right; exact Hc').
      apply get_set_chunk_other; assumption.
Qed.

Lemma components_loop_total self op (data : ndarray) l :
  forall buf,
  let d := Z.to_nat (reshaper_dim (_data_reshaper self)) in
  let n := prod_shape (firstn 3 (shape buf)) in
  NoDup l ->
  (forall c, In c l -> (c * n + n <= length (flat buf))%nat) ->
  (ndim data = d + 1)%nat ->
  (forall c, In c l ->
     (c < nth d (shape data) 0)%nat /\
     exists lw,
       t3d_primitive (_grid_partition self) op (component_3d d data c)
         (component_view buf c) = inr lw) ->
  exists tr buf',
    for_each l (exchange_step self op data) buf = (tr, inr buf').
Proof.
  induction l as [|ic l IH]; intros buf d n Hnd Hle Hdata Hok.
  - cbn. eexists _, _. reflexivity.
  - cbn [for_each].
    destruct (Hok ic (or_introl eq_refl)) as (Hic & lw & Hp).
    rewrite (exchange_step_value self op data ic buf lw Hdata Hic Hp).
    fold n.
    inversion Hnd as [|? ? Hnotin Hnd']; subst.
    assert (Hbound : (ic * n + n <= length (flat buf))%nat)
      by (apply Hle; left; reflexivity).
    assert (Hnew : length (write_into (get_chunk n ic (flat buf)) lw) = n)
      by (rewrite length_write_into; apply length_get_chunk; exact Hbound).
    destruct (IH (mk_ndarray (dtype_of buf) (shape buf)
                    (set_chunk n ic
                       (write_into (get_chunk n ic (flat buf)) lw)
                       (flat buf))) Hnd') as (tr & buf' & Hloop).
    + intros c Hc. cbn [shape flat]. fold n.
      rewrite length_set_chunk by assumption. apply Hle. right. exact Hc.
    + exact Hdata.
    + intros c Hc. destruct (Hok c (or_intror Hc)) as (Hcd & lw' & Hp').
      split; [exact Hcd|]. exists lw'.
      assert (Hne : c <> ic) by (intros ->; contradiction).
      pose proof (component_view_set_other buf ic c
                    (write_into (get_chunk n ic (flat buf)) lw)
                    Hne Hnew Hbound) as Hview.
      cbv zeta in Hview. fold n in Hview. rewrite Hview.
      exact Hp'.
    + unfold bind. rewrite Hloop. eexists _, _. reflexivity.
Qed.

(** ** Calls of [exchange] that return *)

Lemma num_components_multi self (data : ndarray) :
  num_components_of self data <> 1%nat ->
  Z.of_nat (ndim data) = _dim self + 1 /\
  num_components_of self data
  = nth (Z.to_nat (_dim self)) (shape data) 0%nat.
Proof.
  unfold num_components_of.
  destruct (Z.of_nat (ndim data) =? _dim self + 1) eqn:H; intros Hne.
  - apply Z.eqb_eq in H. auto.
  - contradiction.
Qed.

Lemma reshapeFrom3d_success r (buf : ndarray) tr out :
  reshapeFrom3d r buf = (tr, inr out) ->
  let d := Z.to_nat (reshaper_dim r) in
  tr = [ReshapeFrom3d buf] /\
  (ndim buf = 3 \/ ndim buf = 4)%nat /\
  all_ones (skipn d (firstn 3 (shape buf))) = true /\
  out = mk_ndarray (dtype_of buf)
          (firstn d (firstn 3 (shape buf)) ++ skipn 3 (shape buf))
          (flat buf).
Proof.
  unfold reshapeFrom3d, reshapeFrom3d_model, call. cbv zeta.
  destruct ((ndim buf =? 3) || (ndim buf =? 4))%nat eqn:Hn;
    [|discriminate].
  destruct (all_ones _) eqn:Hones; [|discriminate].
  intros H. injection H as <- <-.
  split; [reflexivity|]. split; [|split; reflexivity].
  apply orb_true_iff in Hn as [Hn|Hn]; apply Nat.eqb_eq in Hn; auto.
Qed.

Lemma reshapeFrom3d_value r (buf : ndarray) :
  let d := Z.to_nat (reshaper_dim r) in
  (ndim buf = 3 \/ ndim buf = 4)%nat ->
  all_ones (skipn d (firstn 3 (shape buf))) = true ->
  reshapeFrom3d r buf
  = ([ReshapeFrom3d buf],
     inr (mk_ndarray (dtype_of buf)
            (firstn d (firstn 3 (shape buf)) ++ skipn 3 (shape buf))
            (flat buf))).
Proof.
  cbv zeta. intros Hn Hones.
  unfold reshapeFrom3d, reshapeFrom3d_model, call.
  rewrite Hones.
  replace ((ndim buf =? 3) || (ndim buf =? 4))%nat with true;
    [reflexivity|].
  symmetry. apply orb_true_iff.
  destruct Hn as [Hn|Hn]; [left|right]; apply Nat.eqb_eq; exact Hn.
Qed.

Lemma firstn3_of_three {A} (l t : list A) :
  length l = 3%nat -> firstn 3 (l ++ t) = l /\ skipn 3 (l ++ t) = t.
Proof.
  intros H. destruct l as [|a [|b [|c [|]]]]; try discriminate.
  split; reflexivity.
Qed.

Lemma exchange_multi_success self size op (data : ndarray) tr out :
  reshaper_dim (_data_reshaper self) = _dim self ->
  0 <= _dim self ->
  length size = 3%nat ->
  num_components_of self data <> 1%nat ->
  exchange junk self size op data = (tr, inr out) ->
  let d := Z.to_nat (_dim self) in
  let C := nth d (shape data) 0%nat in
  let S3 := map Z.to_nat size in
  let n := prod_shape S3 in
  let buf0 := uninitialised junk (S3 ++ [C]) (dtype_of data) in
  Forall (fun z => 0 <= z) size /\
  (ndim data = d + 1)%nat /\
  all_ones (skipn d S3) = true /\
  dtype_of out = dtype_of data /\
  shape out = firstn d S3 ++ [C] /\
  length (flat out) = (n * C)%nat /\
  transposes tr
  = map (fun c => Transpose op (component_3d d data c) (Some c))
      (seq 0 C) /\
  forall c, (c < C)%nat ->
    exists lw,
      t3d_primitive (_grid_partition self) op (component_3d d data c)
        (component_view buf0 c) = inr lw /\
      get_chunk n c (flat out)
      = write_into (get_chunk n c (flat buf0)) lw.
Proof.
  intros Hr Hdim Hsize HC H d C S3 n buf0.
  destruct (num_components_multi self data HC) as [Hnd HCeq].
  fold d C in HCeq.
  unfold exchange in H. rewrite HCeq in H.
  assert (HC1 : (C =? 1)%nat = false)
    by (apply Nat.eqb_neq; rewrite <- HCeq; exact HC).
  rewrite HC1 in H.
  apply bind_success in H as (t1 & buf & t2 & Halloc & H & ->).
  apply numpy_empty_success in Halloc as (-> & Hnonneg & ->).
  rewrite map_app in H. cbn [map] in H. rewrite Nat2Z.id in H.
  fold S3 buf0 in H.
  apply bind_success in H as (t3 & buf' & t4 & Hloop & Hfrom & ->).
  assert (HS3 : length S3 = 3%nat)
    by (unfold S3; rewrite length_map; exact Hsize).
  destruct (firstn3_of_three S3 [C] HS3) as [Hf3 Hs3].
  assert (Hlen0 : length (flat buf0) = (n * C)%nat).
  { pose proof (wf_uninitialised (S3 ++ [C]) (dtype_of data)) as Hwf.
    unfold wf_array in Hwf. fold buf0 in Hwf. rewrite Hwf.
    cbn [shape uninitialised buf0]. rewrite prod_shape_app.
    fold n. unfold prod_shape. cbn [fold_right]. lia. }
  unfold for_range in Hloop.
  apply components_loop_success in Hloop; [|apply seq_NoDup|].
  2:{ intros c Hc. apply in_seq in Hc.
      cbn [shape uninitialised buf0]. rewrite Hf3. fold n. fold buf0.
      rewrite Hlen0. nia. }
  rewrite Hr in Hloop. fold d in Hloop.
  cbn [shape uninitialised buf0 dtype_of] in Hloop.
  rewrite Hf3 in Hloop. fold n buf0 in Hloop.
  destruct Hloop as (Hdt & Hsh & Hlen & Htr & Hin & _).
  apply reshapeFrom3d_success in Hfrom as (-> & _ & Hones & ->).
  rewrite Hr in Hones |- *. fold d in Hones |- *.
  rewrite Hsh, Hf3 in Hones. rewrite Hsh, Hf3, Hs3.
  cbn [dtype_of shape flat].
  split; [apply Forall_app in Hnonneg as [? _]; assumption|].
  split; [unfold d; lia|].
  split; [exact Hones|]. split; [exact Hdt|]. split; [reflexivity|].
  split; [rewrite Hlen; exact Hlen0|].
  split.
  - cbn [app transposes]. rewrite transposes_app, Htr.
    cbn [transposes]. apply app_nil_r.
  - intros c Hc.
    destruct (Hin c) as (_ & lw & Hp & Hchunk);
      [apply in_seq; lia|].
    exists lw. split; assumption.
Qed.

Lemma bind_value {A B} (m : M num A) (k : A -> M num B) t a t' r :
  m = (t, inr a) -> k a = (t', r) -> bind m k = (t ++ t', r).
Proof. intros -> Hk. unfold bind. rewrite Hk. reflexivity. Qed.

Lemma exchange_multi_total self size op (data : ndarray) :
  let d := Z.to_nat (_dim self) in
  let C := nth d (shape data) 0%nat in
  let S3 := map Z.to_nat size in
  let buf0 := uninitialised junk (S3 ++ [C]) (dtype_of data) in
  reshaper_dim (_data_reshaper self) = _dim self ->
  0 <= _dim self ->
  length size = 3%nat ->
  Forall (fun z => 0 <= z) size ->
  (ndim data = d + 1)%nat -> C <> 1%nat ->
  all_ones (skipn d S3) = true ->
  (forall c, (c < C)%nat ->
     exists lw,
       t3d_primitive (_grid_partition self) op (component_3d d data c)
         (component_view buf0 c) = inr lw) ->
  exists tr out, exchange junk self size op data = (tr, inr out).
Proof.
  intros d C S3 buf0 Hr Hdim Hsize Hnonneg Hnd HC Hones Hprim.
  assert (HCnum : num_components_of self data = C).
  { unfold num_components_of.
    replace (Z.of_nat (ndim data) =? _dim self + 1) with true;
      [reflexivity|].
    symmetry. apply Z.eqb_eq. unfold d in Hnd. lia. }
  assert (HS3 : length S3 = 3%nat)
    by (unfold S3; rewrite length_map; exact Hsize).
  destruct (firstn3_of_three S3 [C] HS3) as [Hf3 Hs3].
  assert (Hlen0 : length (flat buf0) = (prod_shape S3 * C)%nat).
  { pose proof (wf_uninitialised (S3 ++ [C]) (dtype_of data)) as Hwf.
    unfold wf_array in Hwf. fold buf0 in Hwf. rewrite Hwf.
    cbn [shape uninitialised buf0]. rewrite prod_shape_app.
    unfold prod_shape. cbn [fold_right]. lia. }
  assert (Hbound : forall c, In c (seq 0 C) ->
            (c * prod_shape (firstn 3 (shape buf0))
             + prod_shape (firstn 3 (shape buf0))
             <= length (flat buf0))%nat).
  { intros c Hc. apply in_seq in Hc.
    cbn [shape uninitialised buf0]. rewrite Hf3. fold buf0.
    rewrite Hlen0. nia. }
  destruct (components_loop_total self op data (seq 0 C) buf0)
    as (tl & buf' & Hloop).
  - apply seq_NoDup.
  - exact Hbound.
  - rewrite Hr. exact Hnd.
  - rewrite Hr. intros c Hc. apply in_seq in Hc.
    split; [fold d C; lia|]. apply Hprim. lia.
  - pose proof (components_loop_success self op data (seq 0 C) buf0 tl
                  buf' (seq_NoDup C 0) Hbound Hloop)
      as (_ & Hsh & _).
    eexists _, _. unfold exchange.
    rewrite HCnum.
    replace (C =? 1)%nat with false by (symmetry; apply Nat.eqb_neq; exact HC).
    eapply bind_value.
    { apply numpy_empty_value. apply Forall_app. split; [exact Hnonneg|].
      constructor; [lia|constructor]. }
    rewrite map_app. cbn [map]. rewrite Nat2Z.id. fold S3 buf0.
    eapply bind_value; [exact Hloop|].
    apply reshapeFrom3d_value.
    + right. unfold ndim. rewrite Hsh. cbn [shape uninitialised buf0].
      rewrite length_app, HS3. reflexivity.
    + rewrite Hsh. cbn [shape uninitialised buf0]. rewrite Hf3, Hr.
      exact Hones.
Qed.

Lemma exchange_single_success self size op (data : ndarray) tr out :
  reshaper_dim (_data_reshaper self) = _dim self ->
  length size = 3%nat ->
  num_components_of self data = 1%nat ->
  exchange junk self size op data = (tr, inr out) ->
  let d := Z.to_nat (_dim self) in
  let S3 := map Z.to_nat size in
  let buf0 := uninitialised junk S3 (dtype_of data) in
  Forall (fun z => 0 <= z) size /\
  ndim data = d /\
  all_ones (skipn d S3) = true /\
  exists lw,
    t3d_primitive (_grid_partition self) op (whole_3d data) buf0
    = inr lw /\
    tr = [Alloc size (dtype_of data); ReshapeTo3d data None;
          Transpose op (whole_3d data) None;
          ReshapeFrom3d (filled buf0 lw)] /\
    out = mk_ndarray (dtype_of data) (firstn d S3)
            (write_into (flat buf0) lw).
Proof.
  intros Hr Hsize HC H d S3 buf0.
  unfold exchange in H. rewrite HC in H. cbn [Nat.eqb] in H.
  apply bind_success in H as (t1 & buf & t2 & Halloc & H & ->).
  apply numpy_empty_success in Halloc as (-> & Hnonneg & ->).
  fold S3 buf0 in H.
  apply bind_success in H as (t3 & d3 & t4 & Hto & H & ->).
  unfold reshapeTo3d, call, reshapeTo3d_model in Hto.
  rewrite Hr in Hto. fold d in Hto.
  destruct (ndim data =? d)%nat eqn:Hnd; [|discriminate].
  apply Nat.eqb_eq in Hnd. injection Hto as <- <-.
  apply bind_success in H as (t5 & buf' & t6 & Htr & Hfrom & ->).
  unfold t3d_transpose, call in Htr. fold (whole_3d data) in Htr.
  destruct (t3d_primitive _ op (whole_3d data) buf0) as [e|lw] eqn:Hp;
    [discriminate|].
  injection Htr as <- <-.
  apply reshapeFrom3d_success in Hfrom as (-> & _ & Hones & ->).
  assert (HS3 : length S3 = 3%nat)
    by (unfold S3; rewrite length_map; exact Hsize).
  destruct (firstn3_of_three S3 [] HS3) as [Hf3 Hs3].
  rewrite app_nil_r in Hf3, Hs3.
  cbn [shape dtype_of flat uninitialised buf0] in Hones |- *.
  rewrite Hr in Hones |- *. fold d in Hones |- *.
  rewrite Hf3 in Hones |- *. rewrite Hs3, app_nil_r.
  split; [exact Hnonneg|]. split; [exact Hnd|]. split; [exact Hones|].
  exists lw. split; [reflexivity|]. split; reflexivity.
Qed.

Lemma exchange_single_value self size op (data : ndarray) lw :
  let d := Z.to_nat (_dim self) in
  let S3 := map Z.to_nat size in
  let buf0 := uninitialised junk S3 (dtype_of data) in
  reshaper_dim (_data_reshaper self) = _dim self ->
  0 <= _dim self ->
  length size = 3%nat ->
  Forall (fun z => 0 <= z) size ->
  ndim data = d ->
  all_ones (skipn d S3) = true ->
  t3d_primitive (_grid_partition self) op (whole_3d data) buf0 = inr lw ->
  exchange junk self size op data
  = ([Alloc size (dtype_of data); ReshapeTo3d data None;
      Transpose op (whole_3d data) None; ReshapeFrom3d (filled buf0 lw)],
     inr (mk_ndarray (dtype_of data) (firstn d S3)
            (write_into (flat buf0) lw))).
Proof.
  intros d S3 buf0 Hr Hdim Hsize Hnonneg Hnd Hones Hp.
  assert (HC : num_components_of self data = 1%nat).
  { unfold num_components_of.
    replace (Z.of_nat (ndim data) =? _dim self + 1) with false;
      [reflexivity|].
    symmetry. apply Z.eqb_neq. unfold d in Hnd. lia. }
  assert (HS3 : length S3 = 3%nat)
    by (unfold S3; rewrite length_map; exact Hsize).
  destruct (firstn3_of_three S3 [] HS3) as [Hf3 Hs3].
  rewrite app_nil_r in Hf3, Hs3.
  unfold exchange. rewrite HC. cbn [Nat.eqb].
  change [Alloc size (dtype_of data); ReshapeTo3d data None;
          Transpose op (whole_3d data) None;
          ReshapeFrom3d (filled buf0 lw)]
    with ([Alloc size (dtype_of data)] ++ [ReshapeTo3d data None] ++
          [Transpose op (whole_3d data) None] ++
          [ReshapeFrom3d (filled buf0 lw)]).
  eapply bind_value; [apply numpy_empty_value; exact Hnonneg|].
  fold S3 buf0.
  eapply bind_value.
  { unfold reshapeTo3d, call, reshapeTo3d_model.
    rewrite Hr. fold d. apply Nat.eqb_eq in Hnd. rewrite Hnd.
    reflexivity. }
  fold (whole_3d data).
  eapply bind_value.
  { unfold t3d_transpose, call. rewrite Hp. reflexivity. }
  fold (filled buf0 lw).
  rewrite reshapeFrom3d_value.
  - cbn [filled shape dtype_of flat uninitialised buf0].
    rewrite Hr. fold d. rewrite Hf3, Hs3, app_nil_r. reflexivity.
  - left. unfold ndim. cbn [filled shape uninitialised buf0]. exact HS3.
  - cbn [filled shape uninitialised buf0]. rewrite Hr, Hf3. exact Hones.
Qed.

(** ** Conversions between extents in [Z] and in [nat] *)

Lemma map_to_nat_of_nat (l : list nat) : map Z.to_nat (map Z.of_nat l) = l.
Proof.
  induction l as [|x l IH]; cbn [map]; [reflexivity|].
  rewrite Nat2Z.id, IH. reflexivity.
Qed.


Lemma Forall_nonneg_of_nat (l : list nat) :
  Forall (fun z => 0 <= z) (map Z.of_nat l).
Proof.
  induction l; cbn [map]; constructor; [lia | assumption].
Qed.

Lemma dim_to_nat dimension :
  dimension = 2 \/ dimension = 3 ->
  (Z.to_nat dimension = 2 \/ Z.to_nat dimension = 3)%nat.
Proof. intros [-> | ->]; [left | right]; reflexivity. Qed.

(** ** The per-component calls *)

Lemma firstn_seq k a n : firstn k (seq a n) = seq a (Nat.min k n).
Proof.
  revert a n. induction k as [|k IH]; intros a [|n]; cbn; try reflexivity.
  f_equal. apply IH.
Qed.

(** Whether the loop completes or stops at a failure, the transposes it
    has called are those of the first components, in order. *)
Lemma components_loop_prefix self op (data : ndarray) l :
  forall buf,
  let d := Z.to_nat (reshaper_dim (_data_reshaper self)) in
  exists k, (k <= length l)%nat /\
    transposes (trace_of (for_each l (exchange_step self op data) buf))
    = map (fun c => Transpose op (component_3d d data c) (Some c))
        (firstn k l).
Proof.
  induction l as [|ic l IH]; intros buf d.
  - exists 0%nat. split; [apply Nat.le_refl | reflexivity].
  - cbn [for_each].
    unfold exchange_step at 1, reshapeTo3d, t3d_transpose_slot, call.
    destruct (reshapeTo3d_model (_data_reshaper self) data (Some ic))
      as [e|d3] eqn:Hr.
    + exists 0%nat. split; [apply Nat.le_0_l | reflexivity].
    + apply reshapeTo3d_model_component in Hr as [_ ->]. fold d.
      unfold bind at 2.
      destruct (t3d_primitive (_grid_partition self) op
                  (component_3d d data ic) (component_view buf ic))
        as [e|lw].
      * exists 1%nat. split; [cbn [length]; lia | reflexivity].
      * unfold bind.
        match goal with
        | |- context [for_each l _ ?b] => destruct (IH b) as (k & Hk & Htr)
        end.
        fold d in Htr.
        exists (S k). split; [cbn [length]; lia|].
        unfold trace_of in Htr |- *.
        match goal with
        | |- context [for_each l ?f ?b] =>
            destruct (for_each l f b) as [t r]
        end.
        cbn [fst app transposes firstn map] in Htr |- *.
        rewrite Htr. reflexivity.
Qed.

Lemma exchange_multi_prefix self size op (data : ndarray) :
  num_components_of self data <> 1%nat ->
  let d := Z.to_nat (reshaper_dim (_data_reshaper self)) in
  exists k, (k <= num_components_of self data)%nat /\
    transposes (trace_of (exchange junk self size op data))
    = map (fun c => Transpose op (component_3d d data c) (Some c))
        (seq 0 k).
Proof.
  intros HC d. unfold exchange.
  apply Nat.eqb_neq in HC. rewrite HC.
  unfold numpy_empty, call.
  destruct (existsb (fun z => z <? 0) _).
  - exists 0%nat. split; [apply Nat.le_0_l | reflexivity].
  - unfold bind at 1.
    match goal with
    | |- context [for_range ?n ?f ?b] =>
        destruct (components_loop_prefix self op data (seq 0 n) b)
          as (k & Hk & Htr);
        unfold for_range;
        destruct (for_each (seq 0 n) f b) as [t [e|buf']]
    end;
      rewrite length_seq in Hk; rewrite firstn_seq in Htr;
      replace (Nat.min k (num_components_of self data)) with k in Htr
        by lia;
      fold d in Htr; cbn [trace_of fst] in Htr;
      exists k; (split; [exact Hk|]).
    + cbn [bind trace_of fst app transposes]. exact Htr.
    + unfold bind, reshapeFrom3d, call.
      cbn [trace_of fst app transposes].
      rewrite transposes_app, Htr. cbn [transposes]. apply app_nil_r.
Qed.

(** C7. On data with [dim + 1] axes and [C] components ([C] other than
    1), the calls either method makes to the partition's transposes are
    calls of the transpose of the configured direction on the components
    0, 1, ... of the data, in this order, each into the slot of the
    same index.  A call that returns has made exactly [C] of them,
    one per component, and component [c] of the result is what the
    transpose of component [c] of the data left in slot [c] of the fresh
    buffer. *)
Theorem one_transpose_per_component
    (gp : GridPartition num) (direction dimension : Z)
    (tr0 : list (event num)) (self : TransposeWrapper num)
    (data : ndarray) :
  __init__ (T3d gp) direction dimension = (tr0, inr self) ->
  let d := Z.to_nat dimension in
  let C := nth d (shape data) 0%nat in
  Z.of_nat (ndim data) = dimension + 1 ->
  C <> 1%nat ->
  (forall tr r, toPencil self data = (tr, r) ->
     let pencil := map Z.to_nat (_pencil_size self) in
     let buf := uninitialised junk (pencil ++ [C]) (dtype_of data) in
     let calls k :=
       map (fun c => Transpose (to_pencil_op direction)
                       (component_3d d data c) (Some c)) (seq 0 k) in
     (exists k, (k <= C)%nat /\ transposes tr = calls k) /\
     forall out, r = inr out ->
       transposes tr = calls C /\
       forall c, (c < C)%nat ->
         produced_by gp (to_pencil_op direction) (component_3d d data c)
           (component_view buf c)
           (get_chunk (prod_shape pencil) c (flat out))) /\
  (forall tr r, fromPencil self data = (tr, r) ->
     let natural := map Z.to_nat (_3d_size self) in
     let buf := uninitialised junk (natural ++ [C]) (dtype_of data) in
     let calls k :=
       map (fun c => Transpose (from_pencil_op direction)
                       (component_3d d data c) (Some c)) (seq 0 k) in
     (exists k, (k <= C)%nat /\ transposes tr = calls k) /\
     forall out, r = inr out ->
       transposes tr = calls C /\
       forall c, (c < C)%nat ->
         produced_by gp (from_pencil_op direction) (component_3d d data c)
           (component_view buf c)
           (get_chunk (prod_shape natural) c (flat out))).
Proof.
  intros Hinit d C Hnd HC.
  apply init_success in Hinit
    as (Hdim & Hdir & Hgp & Hd & Hdr & Hr & (a & b & c & Hn & _)
        & (a' & b' & c' & Hp) & _).
  assert (Hrd : reshaper_dim (_data_reshaper self) = _dim self)
    by (rewrite Hr, Hd; reflexivity).
  assert (HCeq : num_components_of self data = C).
  { unfold num_components_of. rewrite Hd.
    apply Z.eqb_eq in Hnd. rewrite Hnd. reflexivity. }
  assert (Hmulti : num_components_of self data <> 1%nat)
    by (rewrite HCeq; exact HC).
  assert (Hgen : forall size op tr r,
            length size = 3%nat ->
            exchange junk self size op data = (tr, r) ->
            (exists k, (k <= C)%nat /\
               transposes tr
               = map (fun c => Transpose op (component_3d d data c)
                                 (Some c)) (seq 0 k)) /\
            forall out, r = inr out ->
              transposes tr
              = map (fun c => Transpose op (component_3d d data c)
                                (Some c)) (seq 0 C) /\
              forall c, (c < C)%nat ->
                produced_by gp op (component_3d d data c)
                  (component_view
                     (uninitialised junk (map Z.to_nat size ++ [C])
                        (dtype_of data)) c)
                  (get_chunk (prod_shape (map Z.to_nat size)) c
                     (flat out))).
  { intros size op tr r Hsize H. split.
    - destruct (exchange_multi_prefix self size op data Hmulti)
        as (k & Hk & Htr).
      rewrite H, Hrd, Hd, HCeq in *. fold d in Htr.
      exists k. split; [exact Hk | exact Htr].
    - intros out ->.
      pose proof (exchange_multi_success self size op data tr out Hrd
                    ltac:(lia) Hsize Hmulti H) as Hs.
      cbv zeta in Hs. rewrite Hd, Hgp in Hs. fold d C in Hs.
      destruct Hs as (_ & _ & _ & _ & _ & _ & Htr & Hchunks).
      split; [exact Htr|].
      intros k Hk. destruct (Hchunks k Hk) as (lw & Hprim & Hchunk).
      exists lw. split; [exact Hprim|].
      rewrite Hchunk. unfold component_view.
      cbn [flat shape uninitialised].
      assert (HS3 : length (map Z.to_nat size) = 3%nat)
        by (rewrite length_map; exact Hsize).
      destruct (firstn3_of_three _ [C] HS3) as [-> _]. reflexivity. }
  split; intros tr r H; cbv zeta.
  - rewrite transposeToPencil_exchange in H.
    destruct (negb _).
    + injection H as <- <-. split.
      * exists 0%nat. split; [apply Nat.le_0_l | reflexivity].
      * intros out Hout. discriminate Hout.
    + rewrite Hdr in H. apply Hgen in H; [exact H|].
      rewrite Hp. reflexivity.
  - rewrite transposeFromPencil_exchange in H.
    destruct (negb _).
    + injection H as <- <-. split.
      * exists 0%nat. split; [apply Nat.le_0_l | reflexivity].
      * intros out Hout. discriminate Hout.
    + rewrite Hdr in H. apply Hgen in H; [exact H|].
      rewrite Hn. reflexivity.
Qed.

(** ** The shape of the result *)



(** ** The working buffer and the transposes of [transposeFromPencil] *)

Lemma exchange_transpose_count self size op (data : ndarray) tr out :
  reshaper_dim (_data_reshaper self) = _dim self ->
  0 <= _dim self ->
  length size = 3%nat ->
  exchange junk self size op data = (tr, inr out) ->
  length (transposes tr) = num_components_of self data.
Proof.
  intros Hr Hdim Hsize H.
  destruct (Nat.eq_dec (num_components_of self data) 1) as [HC|HC].
  - apply exchange_single_success in H; try assumption.
    cbv zeta in H. destruct H as (_ & _ & _ & lw & _ & -> & _).
    rewrite HC. reflexivity.
  - destruct (num_components_multi self data HC) as [_ HCeq].
    apply exchange_multi_success in H; try assumption.
    cbv zeta in H. destruct H as (_ & _ & _ & _ & _ & _ & -> & _).
    rewrite length_map, length_seq. symmetry. exact HCeq.
Qed.

(** ** There and back *)

Lemma ndarray_eq (a b : ndarray) :
  dtype_of a = dtype_of b -> shape a = shape b -> flat a = flat b ->
  a = b.
Proof.
  destruct a, b. cbn [dtype_of shape flat]. intros -> -> ->. reflexivity.
Qed.

Lemma all_real_flat (a b : ndarray) :
  flat a = flat b -> all_real num_is_zero a -> all_real num_is_zero b.
Proof.
  unfold all_real, numpy_isreal. intros ->. auto.
Qed.

Lemma all_real_Forall (a : ndarray) :
  all_real num_is_zero a <->
  Forall (fun s => isreal num_is_zero s = true) (flat a).
Proof.
  unfold all_real, numpy_all, numpy_isreal.
  rewrite forallb_forall, Forall_forall. split.
  - intros H s Hs. apply H. apply in_map. exact Hs.
  - intros H b Hb. apply in_map_iff in Hb as (s & <- & Hs). auto.
Qed.

Lemma Forall_get_chunk {A} (P : A -> Prop) n c (l : list A) :
  Forall P l -> Forall P (get_chunk n c l).
Proof.
  intros H. unfold get_chunk.
  rewrite <- (firstn_skipn (c * n) l) in H.
  apply Forall_app in H as [_ H].
  rewrite <- (firstn_skipn n (skipn (c * n) l)) in H.
  apply Forall_app in H as [H _]. exact H.
Qed.

Lemma Forall_chunks {A} (P : A -> Prop) n C (l : list A) :
  length l = (n * C)%nat ->
  (forall c, (c < C)%nat -> Forall P (get_chunk n c l)) ->
  Forall P l.
Proof.
  revert l. induction C as [|C IH]; intros l Hl H.
  - rewrite Nat.mul_0_r in Hl. destruct l; [constructor|discriminate].
  - rewrite <- (firstn_skipn (n * C) l). apply Forall_app. split.
    + apply IH.
      * rewrite length_firstn. nia.
      * intros c Hc. specialize (H c (Nat.lt_lt_succ_r _ _ Hc)).
        unfold get_chunk in *.
        assert (c * n + n <= n * C)%nat by nia.
        rewrite skipn_firstn_comm, firstn_firstn.
        replace (Nat.min n (n * C - c * n)) with n by lia.
        exact H.
    + specialize (H C (Nat.lt_succ_diag_r C)).
      unfold get_chunk in H.
      replace (C * n)%nat with (n * C)%nat in H by lia.
      rewrite firstn_all2 in H by (rewrite length_skipn; nia).
      exact H.
Qed.

Lemma shape_split (sh : list nat) d :
  length sh = (d + 1)%nat -> sh = firstn d sh ++ [nth d sh 0%nat].
Proof.
  revert sh. induction d as [|d IH]; intros sh H.
  - destruct sh as [|x [|]]; try discriminate. reflexivity.
  - destruct sh as [|x sh]; [discriminate|].
    cbn [firstn nth app]. f_equal. apply IH.
    cbn [length] in H. lia.
Qed.

Lemma exchange_single_round_trip self sizeN sizeP forth back
    (data : ndarray) tr pencil_data :
  let d := Z.to_nat (_dim self) in
  reshaper_dim (_data_reshaper self) = _dim self ->
  _dim self = 2 \/ _dim self = 3 ->
  length sizeP = 3%nat ->
  wf_array data ->
  all_real num_is_zero data ->
  sizeN = map Z.of_nat (pad3 (firstn d (shape data))) ->
  inverse_redistributions num_is_zero (_grid_partition self) forth back
    (map Z.to_nat sizeN) (map Z.to_nat sizeP) ->
  num_components_of self data = 1%nat ->
  exchange junk self sizeP forth data = (tr, inr pencil_data) ->
  all_real num_is_zero pencil_data /\
  exists tr', exchange junk self sizeN back pencil_data = (tr', inr data).
Proof.
  intros d Hrd Hdim HsizeP Hwf Hreal HsizeN Hinv HC H.
  assert (Hd3 : (d <= 3)%nat)
    by (unfold d; destruct (dim_to_nat _ Hdim); lia).
  apply exchange_single_success in H; try assumption.
  cbv zeta in H. fold d in H.
  destruct H as (HnonnegP & Hnd & HonesP & lw & Hp & _ & ->).
  set (P3 := map Z.to_nat sizeP) in *.
  set (bufP := uninitialised junk P3 (dtype_of data)) in *.
  assert (HP3 : length P3 = 3%nat)
    by (unfold P3; rewrite length_map; exact HsizeP).
  assert (HN3 : map Z.to_nat sizeN = pad3 (shape data)).
  { rewrite HsizeN, map_to_nat_of_nat.
    unfold ndim in Hnd. rewrite <- Hnd, firstn_all. reflexivity. }
  rewrite HN3 in Hinv.
  set (bufN := uninitialised junk (pad3 (shape data)) (dtype_of data)).
  assert (Hwf3 : wf_array (whole_3d data)).
  { unfold wf_array, whole_3d. cbn [flat shape].
    rewrite prod_shape_pad3. exact Hwf. }
  assert (Hreal3 : all_real num_is_zero (whole_3d data))
    by (apply (all_real_flat data); [reflexivity | exact Hreal]).
  pose proof (forth_real _ _ _ _ _ _ Hinv (whole_3d data) bufP lw
                eq_refl Hwf3 eq_refl (wf_uninitialised _ _) Hreal3 Hp)
    as HrealB.
  destruct (back_undoes _ _ _ _ _ _ Hinv (whole_3d data) bufP lw bufN
              eq_refl Hwf3 eq_refl (wf_uninitialised _ _)
              eq_refl (wf_uninitialised _ _) Hp)
    as (l' & Hback & Hwrite).
  split.
  - apply (all_real_flat (filled bufP lw)); [reflexivity | exact HrealB].
  - eexists.
    rewrite (exchange_single_value self sizeN back _ l'); try assumption.
    + cbn [dtype_of]. rewrite HN3. fold d bufN.
      rewrite Hwrite. unfold ndim in Hnd. rewrite <- Hnd, firstn_pad3.
      cbn [whole_3d flat]. destruct data; reflexivity.
    + lia.
    + rewrite HsizeN, length_map. apply length_pad3.
      rewrite length_firstn. lia.
    + rewrite HsizeN. apply Forall_nonneg_of_nat.
    + unfold ndim. cbn [shape]. fold d.
      rewrite length_firstn, HP3. lia.
    + fold d. rewrite HN3. unfold ndim in Hnd. rewrite <- Hnd, skipn_pad3.
      apply all_ones_of_repeat.
    + cbn [dtype_of]. rewrite HN3. fold bufN.
      unfold whole_3d at 1. cbn [dtype_of shape flat].
      rewrite (pad3_firstn d P3 HP3 Hd3 HonesP).
      exact Hback.
Qed.

Lemma nth_after_firstn {A} d (l : list A) x dflt :
  (d <= length l)%nat -> nth d (firstn d l ++ [x]) dflt = x.
Proof.
  intros H. rewrite app_nth2; rewrite length_firstn.
  - replace (d - Nat.min d (length l))%nat with 0%nat by lia. reflexivity.
  - lia.
Qed.

Lemma firstn_after_firstn {A} d (l t : list A) :
  (d <= length l)%nat -> firstn d (firstn d l ++ t) = firstn d l.
Proof.
  intros H. rewrite firstn_app, length_firstn.
  replace (d - Nat.min d (length l))%nat with 0%nat by lia.
  cbn [firstn]. rewrite app_nil_r, firstn_firstn, Nat.min_id.
  reflexivity.
Qed.

Lemma component_view_uninitialised (S3 : list nat) C dt c :
  length S3 = 3%nat -> (c < C)%nat ->
  let buf := uninitialised junk (S3 ++ [C]) dt in
  shape (component_view buf c) = S3 /\
  dtype_of (component_view buf c) = dt /\
  flat (component_view buf c) = get_chunk (prod_shape S3) c (flat buf) /\
  wf_array (component_view buf c).
Proof.
  intros HS3 Hc buf.
  destruct (firstn3_of_three S3 [C] HS3) as [Hf3 _].
  unfold component_view, wf_array.
  cbn [shape dtype_of flat uninitialised buf]. rewrite Hf3.
  repeat split.
  apply length_get_chunk.
  rewrite length_map, length_seq, prod_shape_app.
  replace (prod_shape [C]) with C
    by (unfold prod_shape; cbn [fold_right]; lia).
  nia.
Qed.

Lemma exchange_multi_round_trip self sizeN sizeP forth back
    (data : ndarray) tr pencil_data :
  let d := Z.to_nat (_dim self) in
  reshaper_dim (_data_reshaper self) = _dim self ->
  _dim self = 2 \/ _dim self = 3 ->
  length sizeP = 3%nat ->
  wf_array data ->
  all_real num_is_zero data ->
  sizeN = map Z.of_nat (pad3 (firstn d (shape data))) ->
  inverse_redistributions num_is_zero (_grid_partition self) forth back
    (map Z.to_nat sizeN) (map Z.to_nat sizeP) ->
  num_components_of self data <> 1%nat ->
  exchange junk self sizeP forth data = (tr, inr pencil_data) ->
  all_real num_is_zero pencil_data /\
  exists tr', exchange junk self sizeN back pencil_data = (tr', inr data).
Proof.
  intros d Hrd Hdim HsizeP Hwf Hreal HsizeN Hinv HC H.
  assert (Hd3 : (d <= 3)%nat)
    by (unfold d; destruct (dim_to_nat _ Hdim); lia).
  assert (Hdim0 : 0 <= _dim self) by lia.
  destruct (num_components_multi self data HC) as [_ HCeq].
  apply exchange_multi_success in H; try assumption.
  cbv zeta in H. fold d in H, HCeq.
  set (C := nth d (shape data) 0%nat) in *.
  set (P3 := map Z.to_nat sizeP) in *.
  set (nP := prod_shape P3) in *.
  set (bufP := uninitialised junk (P3 ++ [C]) (dtype_of data)) in *.
  destruct H as (HnonnegP & Hnd & HonesP & HdtB & HshB & HlenB & _
                 & Hchunks).
  assert (HC1 : C <> 1%nat) by (rewrite <- HCeq; exact HC).
  assert (HP3 : length P3 = 3%nat)
    by (unfold P3; rewrite length_map; exact HsizeP).
  set (A3 := firstn d (shape data)) in *.
  assert (HA3 : length A3 = d)
    by (unfold A3; rewrite length_firstn; unfold ndim in Hnd; lia).
  assert (HN3 : map Z.to_nat sizeN = pad3 A3)
    by (rewrite HsizeN; apply map_to_nat_of_nat).
  rewrite HN3 in Hinv.
  assert (HlN3 : length (pad3 A3) = 3%nat) by (apply length_pad3; lia).
  set (nA := prod_shape A3).
  assert (Hshape : shape data = A3 ++ [C]) by (apply shape_split; exact Hnd).
  assert (Hlen : length (flat data) = (nA * C)%nat).
  { unfold wf_array in Hwf. rewrite Hwf, Hshape, prod_shape_app.
    replace (prod_shape [C]) with C
      by (unfold prod_shape; cbn [fold_right]; lia).
    reflexivity. }
  (* the components of the data, as the forward transpose receives them *)
  assert (Hsrc : forall c, (c < C)%nat ->
            shape (component_3d d data c) = pad3 A3 /\
            wf_array (component_3d d data c) /\
            all_real num_is_zero (component_3d d data c)).
  { intros c Hc. unfold component_3d. fold A3 nA.
    split; [reflexivity|]. split.
    - unfold wf_array. cbn [flat shape]. rewrite prod_shape_pad3.
      apply length_get_chunk. rewrite Hlen. nia.
    - apply all_real_Forall. cbn [flat]. apply Forall_get_chunk.
      apply all_real_Forall. exact Hreal. }
  (* the components of the result *)
  assert (HBc : forall c lw, (c < C)%nat ->
            get_chunk nP c (flat pencil_data)
            = write_into (get_chunk nP c (flat bufP)) lw ->
            component_3d d pencil_data c
            = filled (component_view bufP c) lw).
  { intros c lw Hc Hchunk.
    destruct (component_view_uninitialised P3 C (dtype_of data) c HP3 Hc)
      as (Hvs & Hvd & Hvf & _).
    fold bufP in Hvs, Hvd, Hvf.
    unfold component_3d, filled. rewrite Hvs, Hvd, Hvf, HdtB, HshB.
    rewrite firstn_after_firstn by lia.
    rewrite (pad3_firstn d P3 HP3 Hd3 HonesP).
    rewrite (prod_shape_firstn d P3 HonesP). fold nP.
    rewrite Hchunk. reflexivity. }
  assert (HrealB : all_real num_is_zero pencil_data).
  { apply all_real_Forall.
    apply (Forall_chunks _ nP C); [exact HlenB|].
    intros c Hc. destruct (Hchunks c Hc) as (lw & Hp & Hchunk).
    destruct (Hsrc c Hc) as (Hs1 & Hs2 & Hs3).
    destruct (component_view_uninitialised P3 C (dtype_of data) c HP3 Hc)
      as (Hvs & Hvd & Hvf & Hvw).
    fold bufP in Hvs, Hvd, Hvf, Hvw.
    pose proof (forth_real _ _ _ _ _ _ Hinv _ _ lw Hs1 Hs2 Hvs Hvw Hs3 Hp)
      as Hr.
    apply all_real_Forall in Hr. unfold filled in Hr. cbn [flat] in Hr.
    rewrite Hvf in Hr. fold nP in Hr. rewrite Hchunk. exact Hr. }
  split; [exact HrealB|].
  assert (HnthB : nth d (shape pencil_data) 0%nat = C)
    by (rewrite HshB; apply nth_after_firstn; lia).
  assert (HndB : (ndim pencil_data = d + 1)%nat).
  { unfold ndim. rewrite HshB, length_app, length_firstn, HP3.
    cbn [length]. lia. }
  set (bufN := uninitialised junk (pad3 A3 ++ [C]) (dtype_of data)).
  (* what the backward transpose does with component [c] of the result *)
  assert (Hback : forall c, (c < C)%nat ->
            exists l',
              t3d_primitive (_grid_partition self) back
                (component_3d d pencil_data c) (component_view bufN c)
              = inr l' /\
              write_into (get_chunk nA c (flat bufN)) l'
              = get_chunk nA c (flat data)).
  { intros c Hc. destruct (Hchunks c Hc) as (lw & Hp & Hchunk).
    destruct (Hsrc c Hc) as (Hs1 & Hs2 & Hs3).
    destruct (component_view_uninitialised P3 C (dtype_of data) c HP3 Hc)
      as (Hvs & Hvd & Hvf & Hvw).
    fold bufP in Hvs, Hvd, Hvf, Hvw.
    destruct (component_view_uninitialised (pad3 A3) C (dtype_of data) c
                HlN3 Hc) as (Hns & Hnd' & Hnf & Hnw).
    fold bufN in Hns, Hnd', Hnf, Hnw.
    destruct (back_undoes _ _ _ _ _ _ Hinv _ _ lw (component_view bufN c)
                Hs1 Hs2 Hvs Hvw Hns Hnw Hp) as (l' & Hb & Hw).
    exists l'. rewrite (HBc c lw Hc Hchunk). split; [exact Hb|].
    rewrite Hnf, prod_shape_pad3 in Hw. exact Hw. }
  assert (HlsN : length sizeN = 3%nat)
    by (rewrite HsizeN, length_map; exact HlN3).
  assert (HnonnegN : Forall (fun z => 0 <= z) sizeN)
    by (rewrite HsizeN; apply Forall_nonneg_of_nat).
  assert (HonesN : all_ones (skipn d (map Z.to_nat sizeN)) = true).
  { rewrite HN3. rewrite <- HA3 at 1. rewrite skipn_pad3.
    apply all_ones_of_repeat. }
  destruct (exchange_multi_total self sizeN back pencil_data
              Hrd Hdim0 HlsN HnonnegN HndB) as (tr' & out & Hex).
  { fold d. rewrite HnthB. exact HC1. }
  { exact HonesN. }
  { fold d. rewrite HnthB, HN3, HdtB. fold bufN.
    intros c Hc. destruct (Hback c Hc) as (l' & Hb & _). eauto. }
  exists tr'. rewrite Hex. do 2 f_equal.
  apply exchange_multi_success in Hex; try assumption.
  2:{ unfold num_components_of.
      replace (Z.of_nat (ndim pencil_data) =? _dim self + 1) with true
        by (symmetry; apply Z.eqb_eq; unfold d in HndB; lia).
      fold d. rewrite HnthB. exact HC1. }
  cbv zeta in Hex. fold d in Hex.
  rewrite HnthB, HN3, HdtB, prod_shape_pad3 in Hex. fold nA bufN in Hex.
  destruct Hex as (_ & _ & _ & Hdt & Hsh & Hlen' & _ & Hchunks').
  rewrite <- HA3 in Hsh at 1. rewrite firstn_pad3 in Hsh.
  assert (Hflat : flat out = flat data).
  { apply (chunks_ext nA C); [exact Hlen' | exact Hlen |].
    intros c Hc. destruct (Hchunks' c Hc) as (lw' & Hp' & Hchunk').
    destruct (Hback c Hc) as (l' & Hb & Hw).
    rewrite Hp' in Hb. injection Hb as <-.
    rewrite Hchunk'. exact Hw. }
  apply ndarray_eq; [exact Hdt | rewrite Hshape; exact Hsh | exact Hflat].
Qed.

(** C1. For a constructed wrapper whose partition has, in the configured
    direction, a pair of transposes that are mutually inverse
    redistributions between the natural block and the pencil block: when
    [data] has the natural block's shape (with or without a component
    axis) and [transposeToPencil] accepts it, [transposeFromPencil]
    applied to the result returns [data] itself: same dtype, same shape,
    same elements. *)
Theorem round_trip
    (gp : GridPartition num) (direction dimension : Z)
    (tr0 : list (event num)) (self : TransposeWrapper num)
    (data : ndarray) (tr : list (event num)) (pencil_data : ndarray) :
  __init__ (T3d gp) direction dimension = (tr0, inr self) ->
  wf_array data ->
  _3d_size self
  = map Z.of_nat (pad3 (firstn (Z.to_nat dimension) (shape data))) ->
  inverse_redistributions num_is_zero gp
    (to_pencil_op direction) (from_pencil_op direction)
    (map Z.to_nat (_3d_size self)) (map Z.to_nat (_pencil_size self)) ->
  toPencil self data = (tr, inr pencil_data) ->
  exists tr', fromPencil self pencil_data = (tr', inr data).
Proof.
  intros Hinit Hwf Hnat Hinv H.
  apply init_success in Hinit
    as (Hdim & Hdir & Hgp & Hd & Hdr & Hr & _ & (a & b & c & Hp) & _).
  assert (Hrd : reshaper_dim (_data_reshaper self) = _dim self)
    by (rewrite Hr, Hd; reflexivity).
  rewrite <- Hd in Hdim, Hnat. rewrite <- Hgp, <- Hdr in Hinv.
  assert (HlP : length (_pencil_size self) = 3%nat)
    by (rewrite Hp; reflexivity).
  rewrite transposeToPencil_exchange in H.
  destruct (numpy_all (numpy_isreal num_is_zero data)) eqn:Hreal;
    cbn [negb] in H; [|discriminate].
  assert (Hboth : all_real num_is_zero pencil_data /\
            exists tr', exchange junk self (_3d_size self)
                          (from_pencil_op (_direction self)) pencil_data
                        = (tr', inr data)).
  { destruct (Nat.eq_dec (num_components_of self data) 1) as [HC|HC].
    - eapply exchange_single_round_trip; eassumption.
    - eapply exchange_multi_round_trip; eassumption. }
  destruct Hboth as (HrealB & tr' & Hex).
  exists tr'. rewrite transposeFromPencil_exchange.
  unfold all_real in HrealB. rewrite HrealB. cbn [negb]. exact Hex.
Qed.

(** ** The partition of a single process *)

Lemma list_nat_eqb_refl (l : list nat) : list_nat_eqb l l = true.
Proof.
  induction l as [|x l IH]; cbn [list_nat_eqb]; [reflexivity|].
  rewrite Nat.eqb_refl, IH. reflexivity.
Qed.

Lemma single_process_primitive n op :
  t3d_primitive (Examples.single_process (num := num) n) op
  = Examples.copy_block.
Proof. destruct op; reflexivity. Qed.

Lemma copy_block_value (src dst : ndarray) l :
  Examples.copy_block src dst = inr l ->
  shape src = shape dst -> wf_array src -> wf_array dst ->
  l = flat src /\ write_into (flat dst) l = flat src.
Proof.
  unfold Examples.copy_block. intros H Hsh Hs Hdst.
  rewrite Hsh, list_nat_eqb_refl in H. injection H as <-.
  split; [reflexivity|]. apply write_into_full.
  unfold wf_array in *. rewrite Hs, Hdst, Hsh. reflexivity.
Qed.

(** On one process every transpose is a copy: any two of them are
    mutually inverse redistributions of a block onto itself. *)
Lemma single_process_inverse n forth back sh :
  inverse_redistributions num_is_zero (Examples.single_process n)
    forth back sh sh.
Proof.
  split.
  - intros src dst l Hs Hws Hd Hwd Hreal Hp.
    rewrite single_process_primitive in Hp.
    apply copy_block_value in Hp as [_ Hw]; try assumption;
      [|congruence].
    apply (all_real_flat src); [|exact Hreal].
    unfold filled. cbn [flat]. symmetry. exact Hw.
  - intros src dst l dst' Hs Hws Hd Hwd Hd' Hwd' Hp.
    rewrite single_process_primitive in Hp |- *.
    apply copy_block_value in Hp as [-> Hw]; try assumption;
      [|congruence].
    exists (flat src). split.
    + unfold Examples.copy_block, filled. cbn [shape flat].
      rewrite Hd, Hd', list_nat_eqb_refl, Hw. reflexivity.
    + apply write_into_full.
      unfold wf_array in *. rewrite Hws, Hwd', Hs, Hd'. reflexivity.
Qed.

(** * Further properties of the code *)

(** ** Construction, continued *)

(** X1. The constructor returns a wrapper exactly when its first argument
    is a [t3d] object, the dimension is 2 or 3 and the direction lies in
    [0, dimension). *)
Theorem construction_characterised
    (grid_partition : pyobject num) (direction dimension : Z) :
  (exists tr self,
     __init__ grid_partition direction dimension = (tr, inr self)) <->
  (exists gp, grid_partition = T3d gp) /\
  0 <= direction < dimension /\ (dimension = 2 \/ dimension = 3).
Proof.
  split.
  - intros (tr & self & H). destruct grid_partition as [gp|].
    + apply init_success in H as (Hdim & Hdir & _).
      split; [eauto|]. split; assumption.
    + discriminate H.
  - intros ((gp & ->) & Hdir & Hdim). unfold __init__.
    replace ((direction <? 0) || (direction >? 2)) with false
      by (symmetry; apply orb_false_iff; split; lia).
    replace ((dimension <? 2) || (dimension >? 3)) with false
      by (symmetry; apply orb_false_iff; split; lia).
    replace (direction >=? dimension) with false by (symmetry; lia).
    destruct_geometry gp.
    destruct (direction =? 0); [|destruct (direction =? 1)];
      cbn; eexists _, _; reflexivity.
Qed.


(** X3. For a partition whose natural block has one-based bounds that
    agree with its size, the cached bounds of the natural block, made
    zero-based at construction, satisfy [hi - lo + 1 = size] on the three
    axes. *)
Theorem natural_bounds_consistency
    (gp : GridPartition num) (direction dimension : Z)
    (tr : list (event num)) (self : TransposeWrapper num) :
  __init__ (T3d gp) direction dimension = (tr, inr self) ->
  consistent_block (get_sz3d gp) (get_st3d gp) (get_en3d gp) ->
  extent (_3d_lo self) (_3d_hi self) = _3d_size self.
Proof.
  unfold __init__.
  destruct ((direction <? 0) || (direction >? 2)); [discriminate|].
  destruct ((dimension <? 2) || (dimension >? 3)); [discriminate|].
  destruct (direction >=? dimension); [discriminate|].
  intros H Hn. unfold consistent_block in Hn.
  destruct_geometry gp.
  destruct Hn as (H0 & H1 & H2).
  apply consistent_bounds_extent in H0, H1, H2.
  destruct (direction =? 0); [|destruct (direction =? 1)];
    cbn in H; injection H as <- <-; cbn; congruence.
Qed.

Lemma wrap32_pred z : has_int32_pred z -> wrap32 (z - 1) = z - 1.
Proof.
  unfold has_int32_pred, int32_min, int32_max. intros H.
  apply wrap32_in_range. unfold in_int32, int32_min, int32_max. lia.
Qed.

(** X4. When the first and last indices the partition gives for the
    pencils of the configured direction are int32 values above the least
    one, [full_pencil] returns them less one, and [full_pencil_size] the
    sizes as given, each cut to the first [dimension] axes. *)
Theorem accessors_zero_based
    (gp : GridPartition num) (direction dimension : Z)
    (tr : list (event num)) (self : TransposeWrapper num) :
  __init__ (T3d gp) direction dimension = (tr, inr self) ->
  Forall has_int32_pred (answer_list gp (start_query direction)) ->
  Forall has_int32_pred (answer_list gp (end_query direction)) ->
  let d := Z.to_nat dimension in
  full_pencil self
  = (firstn d (map Z.pred (answer_list gp (start_query direction))),
     firstn d (map Z.pred (answer_list gp (end_query direction)))) /\
  full_pencil_size self
  = firstn d (answer_list gp (size_query direction)).
Proof.
  unfold __init__, size_query, start_query, end_query, answer_list.
  destruct ((direction <? 0) || (direction >? 2)); [discriminate|].
  destruct ((dimension <? 2) || (dimension >? 3)); [discriminate|].
  destruct (direction >=? dimension); [discriminate|].
  intros H. destruct_geometry gp.
  destruct (direction =? 0); [|destruct (direction =? 1)];
    cbn in H; injection H as <- <-;
    intros Hst Hen; cbv zeta;
    repeat match goal with
           | H : Forall _ (_ :: _) |- _ => inversion H; clear H; subst
           end;
    unfold full_pencil, full_pencil_size, upto_dim, Z.pred;
    cbn [_dim _pencil_lo _pencil_hi _pencil_size int32_array_pred map];
    rewrite !wrap32_pred by assumption; split; reflexivity.
Qed.

(** ** The single-component path, continued *)

(** X5. A call on single-component data that returns has made four calls
    and no other: [numpy.empty] with the cached size and the dtype of the
    data, the reshaper on the data without a component index, the
    transpose of the configured direction from the three-dimensional view
    of the data into the whole buffer, and the reshaper on the buffer.
    The elements returned are those the transpose left in the buffer. *)
Theorem single_component_calls
    (gp : GridPartition num) (direction dimension : Z)
    (tr0 : list (event num)) (self : TransposeWrapper num)
    (data : ndarray) :
  __init__ (T3d gp) direction dimension = (tr0, inr self) ->
  num_components_of self data = 1%nat ->
  (forall tr out, toPencil self data = (tr, inr out) ->
     let buf := uninitialised junk (map Z.to_nat (_pencil_size self))
                  (dtype_of data) in
     exists lw,
       t3d_primitive gp (to_pencil_op direction) (whole_3d data) buf
       = inr lw /\
       tr = [Alloc (_pencil_size self) (dtype_of data);
             ReshapeTo3d data None;
             Transpose (to_pencil_op direction) (whole_3d data) None;
             ReshapeFrom3d (filled buf lw)] /\
       flat out = write_into (flat buf) lw) /\
  (forall tr out, fromPencil self data = (tr, inr out) ->
     let buf := uninitialised junk (map Z.to_nat (_3d_size self))
                  (dtype_of data) in
     exists lw,
       t3d_primitive gp (from_pencil_op direction) (whole_3d data) buf
       = inr lw /\
       tr = [Alloc (_3d_size self) (dtype_of data);
             ReshapeTo3d data None;
             Transpose (from_pencil_op direction) (whole_3d data) None;
             ReshapeFrom3d (filled buf lw)] /\
       flat out = write_into (flat buf) lw).
Proof.
  intros Hinit HC.
  apply init_success in Hinit
    as (Hdim & Hdir & Hgp & Hd & Hdr & Hr & (a & b & c & Hn & _)
        & (a' & b' & c' & Hp) & _).
  assert (Hrd : reshaper_dim (_data_reshaper self) = _dim self)
    by (rewrite Hr, Hd; reflexivity).
  assert (Hgen : forall size op tr out,
            length size = 3%nat ->
            exchange junk self size op data = (tr, inr out) ->
            exists lw,
              t3d_primitive gp op (whole_3d data)
                (uninitialised junk (map Z.to_nat size) (dtype_of data))
              = inr lw /\
              tr = [Alloc size (dtype_of data); ReshapeTo3d data None;
                    Transpose op (whole_3d data) None;
                    ReshapeFrom3d
                      (filled (uninitialised junk (map Z.to_nat size)
                                 (dtype_of data)) lw)] /\
              flat out
              = write_into
                  (flat (uninitialised junk (map Z.to_nat size)
                           (dtype_of data))) lw).
  { intros size op tr out Hsize H.
    apply exchange_single_success in H; try assumption.
    cbv zeta in H. rewrite Hgp in H.
    destruct H as (_ & _ & _ & lw & Hprim & Htr & ->).
    exists lw. split; [exact Hprim|]. split; [exact Htr | reflexivity]. }
  split; intros tr out H; cbv zeta.
  - rewrite transposeToPencil_exchange in H.
    destruct (negb _); [discriminate|].
    rewrite Hdr in H. apply Hgen; [rewrite Hp; reflexivity | exact H].
  - rewrite transposeFromPencil_exchange in H.
    destruct (negb _); [discriminate|].
    rewrite Hdr in H. apply Hgen; [rewrite Hn; reflexivity | exact H].
Qed.

(** ** The working buffer and the transposes of [transposeToPencil] *)

(** X6. In a call of [transposeToPencil] on real data with [C] components,
    the working buffer is asked of [numpy.empty] first, with the cached
    size of the pencil as its shape, followed by [C] when [C] is not 1, and
    with the dtype of the data; every transpose called is the forward one
    of the configured direction ([transpose_3d_to_x] for 0,
    [transpose_3d_to_y] for 1, [transpose_3d_to_z] for 2); and a call that
    returns has called it [C] times. *)
Theorem to_pencil_buffer_and_transposes
    (gp : GridPartition num) (direction dimension : Z)
    (tr0 : list (event num)) (self : TransposeWrapper num)
    (data : ndarray) :
  __init__ (T3d gp) direction dimension = (tr0, inr self) ->
  all_real num_is_zero data ->
  let C := num_components_of self data in
  let forward :=
    match direction with
    | 0 => transpose_3d_to_x_op
    | 1 => transpose_3d_to_y_op
    | _ => transpose_3d_to_z_op
    end in
  exists tr,
    trace_of (toPencil self data)
    = Alloc (if (C =? 1)%nat then _pencil_size self
             else _pencil_size self ++ [Z.of_nat C]) (dtype_of data) :: tr /\
    Forall (is_transpose_of forward) tr /\
    (forall out, outcome (toPencil self data) = inr out ->
       length (transposes tr) = C).
Proof.
  intros Hinit Hreal C forward.
  apply init_success in Hinit
    as (Hdim & Hdir & Hgp & Hd & Hdr & Hr & _ & (a & b & c & Hp) & _).
  assert (Hrd : reshaper_dim (_data_reshaper self) = _dim self)
    by (rewrite Hr, Hd; reflexivity).
  assert (Hop : to_pencil_op (_direction self) = forward).
  { rewrite Hdr. unfold to_pencil_op, forward.
    assert (Hcases : direction = 0 \/ direction = 1 \/ direction = 2)
      by lia.
    destruct Hcases as [-> | [-> | ->]]; reflexivity. }
  unfold all_real in Hreal.
  rewrite transposeToPencil_exchange, Hreal. cbn [negb].
  rewrite Hop.
  destruct (exchange_allocates self (_pencil_size self) forward data)
    as [tr Htr].
  fold C in Htr. exists tr. split; [exact Htr|]. split.
  - pose proof (exchange_transposes self (_pencil_size self) forward data)
      as Hall.
    rewrite Htr in Hall. inversion Hall; assumption.
  - intros out Hout.
    destruct (exchange junk self (_pencil_size self) forward data)
      as [t r] eqn:Hex.
    cbn [trace_of outcome fst snd] in Htr, Hout. subst t r.
    apply exchange_transpose_count in Hex;
      [|exact Hrd|lia|rewrite Hp; reflexivity].
    cbn [transposes] in Hex. exact Hex.
Qed.

(** ** Data without components *)

Lemma shape_uninitialised sh dt : shape (uninitialised junk sh dt) = sh.
Proof. reflexivity. Qed.

Lemma flat_uninitialised sh dt :
  flat (uninitialised junk sh dt) = map junk (seq 0 (prod_shape sh)).
Proof. reflexivity. Qed.

Lemma exchange_no_components self size op (data : ndarray) :
  reshaper_dim (_data_reshaper self) = _dim self ->
  length size = 3%nat ->
  num_components_of self data = 0%nat ->
  let d := Z.to_nat (_dim self) in
  (exists rest,
     trace_of (exchange junk self size op data)
     = Alloc (size ++ [0]) (dtype_of data) :: rest /\
     (rest = [] \/ exists buf, rest = [ReshapeFrom3d buf])) /\
  (forall out, outcome (exchange junk self size op data) = inr out ->
     shape out = firstn d (map Z.to_nat size) ++ [0%nat] /\
     flat out = []).
Proof.
  intros Hr Hsize HC d. unfold exchange. rewrite HC.
  cbn [Nat.eqb Z.of_nat for_range seq for_each].
  unfold numpy_empty, call, ret, reshapeFrom3d.
  destruct (existsb (fun z => z <? 0) (size ++ [0])).
  - cbn. split; [eexists; split; [reflexivity | left; reflexivity]|].
    intros out H. discriminate H.
  - cbn [bind app trace_of outcome fst snd].
    rewrite map_app. cbn [map Z.to_nat].
    assert (HS3 : length (map Z.to_nat size) = 3%nat)
      by (rewrite length_map; exact Hsize).
    destruct (firstn3_of_three (map Z.to_nat size) [0%nat] HS3)
      as [Hf3 Hs3].
    match goal with
    | |- context [reshapeFrom3d_model ?r ?b] =>
        destruct (reshapeFrom3d_model r b) as [e|out'] eqn:Hfrom
    end.
    + split; [eexists; split; [reflexivity | right; eauto]|].
      intros out H. discriminate H.
    + split; [eexists; split; [reflexivity | right; eauto]|].
      intros out H. cbn [bind outcome fst snd] in H. injection H as <-.
      match type of Hfrom with
      | reshapeFrom3d_model ?r ?b = _ =>
          assert (Hcall : reshapeFrom3d r b = ([ReshapeFrom3d b], inr out'))
            by (unfold reshapeFrom3d, call; rewrite Hfrom; reflexivity)
      end.
      apply reshapeFrom3d_success in Hcall as (_ & _ & _ & ->).
      rewrite !shape_uninitialised, flat_uninitialised, Hf3, Hs3, Hr.
      fold d. cbn [shape flat]. split; [reflexivity|].
      rewrite prod_shape_app.
      replace (prod_shape [0%nat]) with 0%nat by reflexivity.
      rewrite Nat.mul_0_r. reflexivity.
Qed.

(** X7. On real data whose axis of components has extent 0, whatever the
    other axes, neither method calls a transpose or hands the data to the
    reshaper: after [numpy.empty] the only call is that of the reshaper on
    the empty buffer, and an array that is returned has the first
    [dimension] entries of the cached size as its leading axes, no
    component and no element. *)
Theorem no_components_no_transposes
    (gp : GridPartition num) (direction dimension : Z)
    (tr0 : list (event num)) (self : TransposeWrapper num)
    (data : ndarray) :
  __init__ (T3d gp) direction dimension = (tr0, inr self) ->
  all_real num_is_zero data ->
  let d := Z.to_nat dimension in
  Z.of_nat (ndim data) = dimension + 1 ->
  nth d (shape data) 0%nat = 0%nat ->
  ((exists rest,
      trace_of (toPencil self data)
      = Alloc (_pencil_size self ++ [0]) (dtype_of data) :: rest /\
      (rest = [] \/ exists buf, rest = [ReshapeFrom3d buf])) /\
   (forall out, outcome (toPencil self data) = inr out ->
      shape out = firstn d (map Z.to_nat (_pencil_size self)) ++ [0%nat] /\
      flat out = [])) /\
  ((exists rest,
      trace_of (fromPencil self data)
      = Alloc (_3d_size self ++ [0]) (dtype_of data) :: rest /\
      (rest = [] \/ exists buf, rest = [ReshapeFrom3d buf])) /\
   (forall out, outcome (fromPencil self data) = inr out ->
      shape out = firstn d (map Z.to_nat (_3d_size self)) ++ [0%nat] /\
      flat out = [])).
Proof.
  intros Hinit Hreal d Hnd Hlast.
  apply init_success in Hinit
    as (Hdim & Hdir & Hgp & Hd & Hdr & Hr & (a & b & c & Hn & _)
        & (a' & b' & c' & Hp) & _).
  assert (Hrd : reshaper_dim (_data_reshaper self) = _dim self)
    by (rewrite Hr, Hd; reflexivity).
  assert (HC : num_components_of self data = 0%nat).
  { unfold num_components_of. rewrite Hd.
    apply Z.eqb_eq in Hnd. rewrite Hnd. exact Hlast. }
  unfold all_real in Hreal.
  rewrite transposeToPencil_exchange, transposeFromPencil_exchange, Hreal.
  cbn [negb]. unfold d. rewrite <- Hd.
  split; apply exchange_no_components; try assumption.
  - rewrite Hp. reflexivity.
  - rewrite Hn. reflexivity.
Qed.

(** ** Back and there *)

(** X8. The round trip in the other order.  When the transposes of the
    configured direction are mutually inverse redistributions, [data] has
    the pencil's shape (with or without a component axis) and
    [transposeFromPencil] accepts it, [transposeToPencil] applied to the
    result returns [data] itself. *)
Theorem round_trip_from_pencil
    (gp : GridPartition num) (direction dimension : Z)
    (tr0 : list (event num)) (self : TransposeWrapper num)
    (data : ndarray) (tr : list (event num)) (natural_data : ndarray) :
  __init__ (T3d gp) direction dimension = (tr0, inr self) ->
  wf_array data ->
  _pencil_size self
  = map Z.of_nat (pad3 (firstn (Z.to_nat dimension) (shape data))) ->
  inverse_redistributions num_is_zero gp
    (from_pencil_op direction) (to_pencil_op direction)
    (map Z.to_nat (_pencil_size self)) (map Z.to_nat (_3d_size self)) ->
  fromPencil self data = (tr, inr natural_data) ->
  exists tr', toPencil self natural_data = (tr', inr data).
Proof.
  intros Hinit Hwf Hpen Hinv H.
  apply init_success in Hinit
    as (Hdim & Hdir & Hgp & Hd & Hdr & Hr & (a & b & c & Hn & _) & _).
  assert (Hrd : reshaper_dim (_data_reshaper self) = _dim self)
    by (rewrite Hr, Hd; reflexivity).
  rewrite <- Hd in Hdim, Hpen. rewrite <- Hgp, <- Hdr in Hinv.
  assert (HlN : length (_3d_size self) = 3%nat)
    by (rewrite Hn; reflexivity).
  rewrite transposeFromPencil_exchange in H.
  destruct (numpy_all (numpy_isreal num_is_zero data)) eqn:Hreal;
    cbn [negb] in H; [|discriminate].
  assert (Hboth : all_real num_is_zero natural_data /\
            exists tr', exchange junk self (_pencil_size self)
                          (to_pencil_op (_direction self)) natural_data
                        = (tr', inr data)).
  { destruct (Nat.eq_dec (num_components_of self data) 1) as [HC|HC].
    - eapply exchange_single_round_trip; eassumption.
    - eapply exchange_multi_round_trip; eassumption. }
  destruct Hboth as (HrealB & tr' & Hex).
  exists tr'. rewrite transposeToPencil_exchange.
  unfold all_real in HrealB. rewrite HrealB. cbn [negb]. exact Hex.
Qed.

(** ** Components are transposed independently *)

Lemma wf_component_3d d (data : ndarray) c :
  wf_array data -> (ndim data = d + 1)%nat ->
  (c < nth d (shape data) 0)%nat ->
  wf_array (component_3d d data c).
Proof.
  intros Hwf Hnd Hc. unfold wf_array, component_3d in *. cbn [flat shape].
  rewrite prod_shape_pad3. apply length_get_chunk.
  rewrite Hwf. rewrite (shape_split (shape data) d Hnd) at 3.
  rewrite prod_shape_app.
  replace (prod_shape [nth d (shape data) 0%nat])
    with (nth d (shape data) 0%nat)
    by (unfold prod_shape; cbn [fold_right]; lia).
  nia.
Qed.

Lemma wf_whole_3d (data : ndarray) : wf_array data -> wf_array (whole_3d data).
Proof.
  unfold wf_array, whole_3d. cbn [flat shape].
  rewrite prod_shape_pad3. auto.
Qed.

Lemma exchange_component_independence self size op (data : ndarray)
    tr out :
  reshaper_dim (_data_reshaper self) = _dim self ->
  _dim self = 2 \/ _dim self = 3 ->
  length size = 3%nat ->
  overwrites (_grid_partition self) op ->
  wf_array data ->
  num_components_of self data <> 1%nat ->
  exchange junk self size op data = (tr, inr out) ->
  let d := Z.to_nat (_dim self) in
  forall c, (c < nth d (shape data) 0)%nat ->
    exists tr_c out_c,
      exchange junk self size op (component_array d data c)
      = (tr_c, inr out_c) /\
      shape out_c = firstn d (shape out) /\
      flat out_c = get_chunk (prod_shape (map Z.to_nat size)) c (flat out).
Proof.
  intros Hrd Hdim Hsize Hover Hwf HC H d c Hc.
  assert (Hd3 : (d <= 3)%nat)
    by (unfold d; destruct (dim_to_nat _ Hdim); lia).
  apply exchange_multi_success in H; try assumption; [|lia].
  cbv zeta in H. fold d in H.
  destruct H as (Hnonneg & Hnd & Hones & _ & Hsh & _ & _ & Hchunks).
  destruct (Hchunks c Hc) as (lw & Hp & Hchunk).
  assert (HS3 : length (map Z.to_nat size) = 3%nat)
    by (rewrite length_map; exact Hsize).
  destruct (component_view_uninitialised (map Z.to_nat size)
              (nth d (shape data) 0%nat) (dtype_of data) c HS3 Hc)
    as (Hvs & Hvd & Hvf & Hvw).
  pose proof (wf_component_3d d data c Hwf Hnd Hc) as Hwc.
  destruct (Hover _ _ _ Hwc Hvw Hp) as [Hfull Hany].
  assert (Hlw : length lw = prod_shape (map Z.to_nat size)).
  { rewrite Hfull. unfold wf_array in Hvw. rewrite Hvw, Hvs. reflexivity. }
  assert (Hfresh : length (flat (uninitialised junk (map Z.to_nat size)
                                   (dtype_of data)))
                   = prod_shape (map Z.to_nat size))
    by apply wf_uninitialised.
  pose proof (exchange_single_value self size op
                (component_array d data c) lw) as Hsingle.
  cbv zeta in Hsingle. fold d in Hsingle.
  change (dtype_of (component_array d data c)) with (dtype_of data)
    in Hsingle.
  change (whole_3d (component_array d data c)) with (component_3d d data c)
    in Hsingle.
  rewrite Hsingle; try assumption.
  - eexists _, _. split; [reflexivity|]. cbn [shape flat].
    split.
    + rewrite Hsh. symmetry. apply firstn_after_firstn. lia.
    + rewrite Hchunk, Hvf in *.
      rewrite !write_into_full; [reflexivity | | ].
      * rewrite Hlw. symmetry. unfold wf_array in Hvw.
        rewrite Hvf, Hvs in Hvw. exact Hvw.
      * rewrite Hlw. symmetry. exact Hfresh.
  - lia.
  - unfold ndim, component_array. cbn [shape].
    rewrite length_firstn. unfold ndim in Hnd. lia.
  - apply Hany.
    + apply wf_uninitialised.
    + rewrite Hvd. reflexivity.
    + rewrite Hvs. reflexivity.
Qed.

Lemma all_real_component d (data : ndarray) c :
  all_real num_is_zero data ->
  all_real num_is_zero (component_array d data c).
Proof.
  intros H. apply all_real_Forall. unfold component_array. cbn [flat].
  apply Forall_get_chunk. apply all_real_Forall. exact H.
Qed.

(** X9. When the transposes of the configured direction overwrite their
    destination, a multi-component array is transposed component by
    component: if the call on the whole array returns, the call on the
    array of any one component returns too, and its result is that
    component of the result for the whole array, with the same leading
    axes. *)
Theorem component_independence
    (gp : GridPartition num) (direction dimension : Z)
    (tr0 : list (event num)) (self : TransposeWrapper num)
    (data : ndarray) :
  __init__ (T3d gp) direction dimension = (tr0, inr self) ->
  overwrites gp (to_pencil_op direction) ->
  overwrites gp (from_pencil_op direction) ->
  wf_array data ->
  let d := Z.to_nat dimension in
  let C := nth d (shape data) 0%nat in
  Z.of_nat (ndim data) = dimension + 1 ->
  C <> 1%nat ->
  (forall tr out, toPencil self data = (tr, inr out) ->
     forall c, (c < C)%nat ->
       exists tr_c out_c,
         toPencil self (component_array d data c) = (tr_c, inr out_c) /\
         shape out_c = firstn d (shape out) /\
         flat out_c
         = get_chunk (prod_shape (map Z.to_nat (_pencil_size self))) c
             (flat out)) /\
  (forall tr out, fromPencil self data = (tr, inr out) ->
     forall c, (c < C)%nat ->
       exists tr_c out_c,
         fromPencil self (component_array d data c) = (tr_c, inr out_c) /\
         shape out_c = firstn d (shape out) /\
         flat out_c
         = get_chunk (prod_shape (map Z.to_nat (_3d_size self))) c
             (flat out)).
Proof.
  intros Hinit Hto Hfrom Hwf d C Hnd HC.
  apply init_success in Hinit
    as (Hdim & Hdir & Hgp & Hd & Hdr & Hr & (a & b & c0 & Hn & _)
        & (a' & b' & c' & Hp) & _).
  assert (Hrd : reshaper_dim (_data_reshaper self) = _dim self)
    by (rewrite Hr, Hd; reflexivity).
  assert (Hmulti : num_components_of self data <> 1%nat).
  { unfold num_components_of. rewrite Hd.
    apply Z.eqb_eq in Hnd. rewrite Hnd. exact HC. }
  rewrite <- Hgp, <- Hdr in Hto, Hfrom. rewrite <- Hd in Hdim.
  unfold C, d. rewrite <- Hd.
  split; intros tr out H c Hc.
  - rewrite transposeToPencil_exchange in H |- *.
    destruct (numpy_all (numpy_isreal num_is_zero data)) eqn:Hreal;
      cbn [negb] in H; [|discriminate].
    pose proof (all_real_component (Z.to_nat (_dim self)) data c Hreal)
      as Hrc.
    unfold all_real in Hrc. rewrite Hrc. cbn [negb].
    eapply exchange_component_independence; try eassumption.
    rewrite Hp. reflexivity.
  - rewrite transposeFromPencil_exchange in H |- *.
    destruct (numpy_all (numpy_isreal num_is_zero data)) eqn:Hreal;
      cbn [negb] in H; [|discriminate].
    pose proof (all_real_component (Z.to_nat (_dim self)) data c Hreal)
      as Hrc.
    unfold all_real in Hrc. rewrite Hrc. cbn [negb].
    eapply exchange_component_independence; try eassumption.
    rewrite Hn. reflexivity.
Qed.

(** ** What a method calls, and on what *)

Lemma trace_for_each_Forall_in {S} (P : event num -> Prop)
    (body : nat -> S -> M num S) l s :
  (forall ic s', In ic l -> Forall P (trace_of (body ic s'))) ->
  Forall P (trace_of (for_each l body s)).
Proof.
  revert s. induction l as [|ic l IH]; intros s Hb; cbn [for_each].
  - constructor.
  - apply trace_bind_Forall.
    + apply Hb. left. reflexivity.
    + intros s'. apply IH. intros jc s'' Hj. apply Hb. right. exact Hj.
Qed.

Lemma exchange_method_events self size op (data : ndarray) :
  Forall (method_event data (num_components_of self data))
    (trace_of (exchange junk self size op data)).
Proof.
  unfold exchange.
  destruct (num_components_of self data =? 1)%nat.
  - apply trace_bind_Forall; [repeat constructor|]. intros buf.
    apply trace_bind_Forall; [repeat constructor|]. intros d3.
    apply trace_bind_Forall; [repeat constructor|]. intros buf'.
    repeat constructor.
  - apply trace_bind_Forall; [repeat constructor|]. intros buf.
    apply trace_bind_Forall; [|intros; repeat constructor].
    apply trace_for_each_Forall_in. intros ic s Hic.
    apply in_seq in Hic. unfold exchange_step.
    apply trace_bind_Forall.
    + constructor; [|constructor]. cbn. split; [reflexivity | lia].
    + intros d3. constructor; [|constructor]. cbn. lia.
Qed.

(** X10. Whatever the data, the calls of either method are calls to
    [numpy.empty], to the reshaper and to the transposes: the partition is
    never queried again, the reshaper is given the data as they came in,
    and with [C] components every component index and every slot of the
    buffer is below [C]. *)
Theorem methods_call_on_the_data
    (self : TransposeWrapper num) (data : ndarray) :
  Forall (method_event data (num_components_of self data))
    (trace_of (toPencil self data)) /\
  Forall (method_event data (num_components_of self data))
    (trace_of (fromPencil self data)).
Proof.
  rewrite transposeToPencil_exchange, transposeFromPencil_exchange.
  destruct (negb _).
  - split; constructor.
  - split; apply exchange_method_events.
Qed.

(** ** A failure ends the call *)

Lemma bind_failed_last {A B} gp r (m : M num A) (k : A -> M num B) :
  (forall e, outcome m = inl e ->
     exists tr ev, trace_of m = tr ++ [ev] /\ event_failed gp r ev e) ->
  (forall a e, outcome (k a) = inl e ->
     exists tr ev, trace_of (k a) = tr ++ [ev] /\ event_failed gp r ev e) ->
  forall e, outcome (bind m k) = inl e ->
    exists tr ev,
      trace_of (bind m k) = tr ++ [ev] /\ event_failed gp r ev e.
Proof.
  unfold bind. destruct m as [t [e0|a]]; cbn; intros Hm Hk e He.
  - apply Hm. injection He as <-. reflexivity.
  - specialize (Hk a e). destruct (k a) as [t' r']. cbn in *.
    destruct (Hk He) as (tr & ev & -> & Hev).
    exists (t ++ tr), ev. split; [apply app_assoc | exact Hev].
Qed.

Lemma for_each_failed_last {S} gp r (body : nat -> S -> M num S) l :
  (forall ic s e, outcome (body ic s) = inl e ->
     exists tr ev,
       trace_of (body ic s) = tr ++ [ev] /\ event_failed gp r ev e) ->
  forall s e, outcome (for_each l body s) = inl e ->
    exists tr ev,
      trace_of (for_each l body s) = tr ++ [ev] /\ event_failed gp r ev e.
Proof.
  intros Hb. induction l as [|ic l IH]; intros s e; cbn [for_each].
  - discriminate.
  - apply bind_failed_last; auto.
Qed.

Lemma call_failed_last {A} (gp : GridPartition num) r (ev : event num)
    (res : exn + A) :
  (forall e, res = inl e -> event_failed gp r ev e) ->
  forall e, outcome (call ev res) = inl e ->
    exists tr ev',
      trace_of (call ev res) = tr ++ [ev'] /\ event_failed gp r ev' e.
Proof.
  intros H e He. exists [], ev. split; [reflexivity|]. apply H. exact He.
Qed.

Lemma exchange_failed_last self size op (data : ndarray) :
  forall e,
  outcome (exchange junk self size op data) = inl e ->
  exists tr ev,
    trace_of (exchange junk self size op data) = tr ++ [ev] /\
    event_failed (_grid_partition self) (_data_reshaper self) ev e.
Proof.
  assert (Hempty : forall sh dt e,
            outcome (numpy_empty junk sh dt) = inl e ->
            exists tr ev,
              trace_of (numpy_empty junk sh dt) = tr ++ [ev] /\
              event_failed (_grid_partition self) (_data_reshaper self)
                ev e).
  { intros sh dt. unfold numpy_empty. apply call_failed_last.
    intros e. destruct (existsb _ sh); [|discriminate].
    intros H. injection H as <-. reflexivity. }
  assert (Hto : forall (a : ndarray) idx e,
            outcome (reshapeTo3d (_data_reshaper self) a idx) = inl e ->
            exists tr ev,
              trace_of (reshapeTo3d (_data_reshaper self) a idx)
              = tr ++ [ev] /\
              event_failed (_grid_partition self) (_data_reshaper self)
                ev e).
  { intros a idx. unfold reshapeTo3d. apply call_failed_last.
    intros e H. exact H. }
  assert (Hfrom : forall (a : ndarray) e,
            outcome (reshapeFrom3d (_data_reshaper self) a) = inl e ->
            exists tr ev,
              trace_of (reshapeFrom3d (_data_reshaper self) a)
              = tr ++ [ev] /\
              event_failed (_grid_partition self) (_data_reshaper self)
                ev e).
  { intros a. unfold reshapeFrom3d. apply call_failed_last.
    intros e H. exact H. }
  unfold exchange.
  destruct (num_components_of self data =? 1)%nat.
  - apply bind_failed_last; [apply Hempty|]. intros buf.
    apply bind_failed_last; [apply Hto|]. intros d3.
    apply bind_failed_last; [|intros a; apply Hfrom].
    unfold t3d_transpose. apply call_failed_last.
    intros e. destruct (t3d_primitive _ op d3 buf) as [e'|l] eqn:Hp;
      [|discriminate].
    intros H. injection H as <-. exists buf. exact Hp.
  - apply bind_failed_last; [apply Hempty|]. intros buf.
    apply bind_failed_last; [|intros a; apply Hfrom].
    apply for_each_failed_last. intros ic s. unfold exchange_step.
    apply bind_failed_last; [apply Hto|]. intros d3.
    unfold t3d_transpose_slot. apply call_failed_last.
    intros e.
    destruct (t3d_primitive _ op d3 (component_view s ic)) as [e'|l] eqn:Hp;
      [|discriminate].
    intros H. injection H as <-. exists (component_view s ic). exact Hp.
Qed.

(** X11. A call of either method that fails either was refused for complex
    data, before any call, or failed with the error of the last call it
    made: after a failure of [numpy.empty], of the reshaper or of a
    transpose nothing more is called, nothing is tried again, and the
    error is handed on as it is. *)
Theorem failure_ends_the_call
    (self : TransposeWrapper num) (data : ndarray) (e : exn) :
  (outcome (toPencil self data) = inl e ->
   (e = complex_data_error /\ trace_of (toPencil self data) = []) \/
   exists tr ev,
     trace_of (toPencil self data) = tr ++ [ev] /\
     event_failed (_grid_partition self) (_data_reshaper self) ev e) /\
  (outcome (fromPencil self data) = inl e ->
   (e = complex_data_error /\ trace_of (fromPencil self data) = []) \/
   exists tr ev,
     trace_of (fromPencil self data) = tr ++ [ev] /\
     event_failed (_grid_partition self) (_data_reshaper self) ev e).
Proof.
  rewrite transposeToPencil_exchange, transposeFromPencil_exchange.
  destruct (negb _).
  - split; intros H; left; cbn in H; injection H as <-;
      split; reflexivity.
  - split; intros H; right; apply exchange_failed_last; exact H.
Qed.

(** ** What is returned *)

Lemma exchange_result self size op (data : ndarray) tr out :
  reshaper_dim (_data_reshaper self) = _dim self ->
  _dim self = 2 \/ _dim self = 3 ->
  length size = 3%nat ->
  exchange junk self size op data = (tr, inr out) ->
  dtype_of out = dtype_of data /\ wf_array out.
Proof.
  intros Hr Hdim Hsize H.
  destruct (Nat.eq_dec (num_components_of self data) 1) as [HC|HC].
  - apply exchange_single_success in H; try assumption.
    cbv zeta in H. destruct H as (_ & _ & Hones & lw & _ & _ & ->).
    split; [reflexivity|].
    unfold wf_array. cbn [flat shape].
    rewrite length_write_into, (prod_shape_firstn _ _ Hones).
    apply wf_uninitialised.
  - apply exchange_multi_success in H; try assumption; [|lia].
    cbv zeta in H.
    destruct H as (_ & _ & Hones & Hdt & Hsh & Hlen & _).
    split; [exact Hdt|].
    unfold wf_array. rewrite Hlen, Hsh, prod_shape_app.
    rewrite (prod_shape_firstn _ _ Hones).
    replace (prod_shape [nth (Z.to_nat (_dim self)) (shape data) 0%nat])
      with (nth (Z.to_nat (_dim self)) (shape data) 0%nat)
      by (unfold prod_shape; cbn [fold_right]; lia).
    reflexivity.
Qed.

(** X12. An array either method returns has the dtype of the data it was
    given. *)
Theorem result_dtype
    (gp : GridPartition num) (direction dimension : Z)
    (tr0 : list (event num)) (self : TransposeWrapper num) :
  __init__ (T3d gp) direction dimension = (tr0, inr self) ->
  (forall (data : ndarray) tr out,
     toPencil self data = (tr, inr out) ->
     dtype_of out = dtype_of data) /\
  (forall (data : ndarray) tr out,
     fromPencil self data = (tr, inr out) ->
     dtype_of out = dtype_of data).
Proof.
  intros Hinit.
  apply init_success in Hinit
    as (Hdim & Hdir & Hgp & Hd & Hdr & Hr & (a & b & c & Hn & _)
        & (a' & b' & c' & Hp) & _).
  assert (Hrd : reshaper_dim (_data_reshaper self) = _dim self)
    by (rewrite Hr, Hd; reflexivity).
  rewrite <- Hd in Hdim.
  split; intros data tr out H.
  - rewrite transposeToPencil_exchange in H.
    destruct (negb _); [discriminate|].
    eapply exchange_result; [exact Hrd | exact Hdim | | exact H].
    rewrite Hp. reflexivity.
  - rewrite transposeFromPencil_exchange in H.
    destruct (negb _); [discriminate|].
    eapply exchange_result; [exact Hrd | exact Hdim | | exact H].
    rewrite Hn. reflexivity.
Qed.

(** ** The example partitions *)

Lemma list_nat_eqb_eq (a b : list nat) : list_nat_eqb a b = true -> a = b.
Proof.
  revert b. induction a as [|x a IH]; intros [|y b] H; cbn in H;
    try discriminate; [reflexivity|].
  apply andb_true_iff in H as [Hx Hab].
  apply Nat.eqb_eq in Hx. subst y. f_equal. apply IH. exact Hab.
Qed.

Lemma copy_block_overwrites (gp : GridPartition num) op :
  t3d_primitive gp op = Examples.copy_block -> overwrites gp op.
Proof.
  intros Hop src dst l Hws Hwd Hp. rewrite Hop in *.
  unfold Examples.copy_block in *.
  destruct (list_nat_eqb (shape src) (shape dst)) eqn:Hsh; [|discriminate].
  apply list_nat_eqb_eq in Hsh. injection Hp as <-.
  split.
  - unfold wf_array in *. rewrite Hws, Hwd, Hsh. reflexivity.
  - intros dst' _ _ Hs'. rewrite Hs', Hsh, list_nat_eqb_refl. reflexivity.
Qed.

Lemma reverse_block_overwrites (gp : GridPartition num) op :
  t3d_primitive gp op = Examples.reverse_block -> overwrites gp op.
Proof.
  intros Hop src dst l Hws Hwd Hp. rewrite Hop in *.
  unfold Examples.reverse_block in *.
  destruct (list_nat_eqb (shape src) (shape dst)) eqn:Hsh; [|discriminate].
  apply list_nat_eqb_eq in Hsh. injection Hp as <-.
  split.
  - unfold wf_array in *. rewrite length_rev, Hws, Hwd, Hsh. reflexivity.
  - intros dst' _ _ Hs'. rewrite Hs', Hsh, list_nat_eqb_refl. reflexivity.
Qed.

(** The two reversing transposes of [mirrored_process] undo each other. *)
Lemma mirrored_process_inverse n sh :
  inverse_redistributions num_is_zero (Examples.mirrored_process n)
    transpose_x_to_3d_op transpose_3d_to_x_op sh sh.
Proof.
  assert (Hvalue : forall (src dst : ndarray) l,
            shape src = sh -> wf_array src -> shape dst = sh ->
            wf_array dst ->
            Examples.reverse_block src dst = inr l ->
            l = rev (flat src) /\
            write_into (flat dst) l = rev (flat src)).
  { intros src dst l Hs Hws Hd Hwd Hp. unfold Examples.reverse_block in Hp.
    rewrite Hs, Hd, list_nat_eqb_refl in Hp. injection Hp as <-.
    split; [reflexivity|]. apply write_into_full.
    unfold wf_array in *. rewrite length_rev, Hws, Hwd, Hs, Hd.
    reflexivity. }
  split.
  - intros src dst l Hs Hws Hd Hwd Hreal Hp. cbn in Hp.
    destruct (Hvalue src dst l Hs Hws Hd Hwd Hp) as [_ Hw].
    apply all_real_Forall. unfold filled. cbn [flat]. rewrite Hw.
    apply Forall_rev. apply all_real_Forall. exact Hreal.
  - intros src dst l dst' Hs Hws Hd Hwd Hd' Hwd' Hp. cbn in Hp |- *.
    destruct (Hvalue src dst l Hs Hws Hd Hwd Hp) as [-> Hw].
    exists (flat src). split.
    + unfold Examples.reverse_block, filled. cbn [shape flat].
      rewrite Hd, Hd', list_nat_eqb_refl, Hw, rev_involutive. reflexivity.
    + apply write_into_full.
      unfold wf_array in *. rewrite Hws, Hwd', Hs, Hd'. reflexivity.
Qed.
(** ** Calls that return *)

Lemma block_size_to_nat d (size : list Z) (data : ndarray) :
  has_block_shape d size data ->
  map Z.to_nat size = pad3 (firstn d (shape data)).
Proof.
  intros [-> _]. apply map_to_nat_of_nat.
Qed.

(** A call on well-formed data of the shape of the source block, one array
    or several components, returns when the cached size of the destination
    is one [numpy.empty] accepts, with unit axes beyond the dimension, and
    the transpose returns on blocks of the two extents. *)
Lemma exchange_returns self sizeIn sizeOut op (data : ndarray) :
  let d := Z.to_nat (_dim self) in
  reshaper_dim (_data_reshaper self) = _dim self ->
  _dim self = 2 \/ _dim self = 3 ->
  length sizeOut = 3%nat ->
  wf_array data ->
  has_block_shape d sizeIn data ->
  fits d sizeOut ->
  returns_on (_grid_partition self) op
    (map Z.to_nat sizeIn) (map Z.to_nat sizeOut) ->
  exists tr out, exchange junk self sizeOut op data = (tr, inr out).
Proof.
  intros d Hr Hdim Hlen Hwf Hblock [Hnonneg Hones] Hret.
  pose proof (block_size_to_nat _ _ _ Hblock) as Hin.
  destruct Hblock as [_ [Hnd | [Hnd HC]]].
  - destruct (Hret (whole_3d data)
                (uninitialised junk (map Z.to_nat sizeOut) (dtype_of data)))
      as [lw Hlw].
    + rewrite Hin. cbn [whole_3d shape]. f_equal.
      symmetry. apply firstn_all2. unfold ndim in Hnd. lia.
    + apply wf_whole_3d. exact Hwf.
    + reflexivity.
    + apply wf_uninitialised.
    + do 2 eexists.
      apply (exchange_single_value self sizeOut op data lw);
        try assumption; lia.
  - apply exchange_multi_total; try assumption; [lia|].
    intros c Hc.
    destruct (component_view_uninitialised (map Z.to_nat sizeOut)
                (nth d (shape data) 0%nat) (dtype_of data) c)
      as (Hsh & _ & _ & Hwfv);
      [rewrite length_map; exact Hlen | exact Hc |].
    apply Hret.
    + rewrite Hin. reflexivity.
    + apply wf_component_3d; assumption.
    + exact Hsh.
    + exact Hwfv.
Qed.


(** ** What a call does with data of whatever shape *)






(** C8, for calls on real data.  In a call of [transposeFromPencil] on
    real data with [C] components, the working buffer is asked of
    [numpy.empty] first, with the cached size of the natural block as its
    shape, followed by [C] when [C] is not 1, and with the dtype of the
    data; every transpose called is the inverse one of the configured
    direction ([transpose_x_to_3d] for 0, [transpose_y_to_3d] for 1,
    [transpose_z_to_3d] for 2); a call that returns has called it [C]
    times; and a call on well-formed data of the shape of the pencils does
    return, its transposes being exactly one call per component, in
    order, on the view of that component (on the whole array when [C] is
    1), whenever the cached size of the natural block is one
    [numpy.empty] accepts, with unit axes beyond [dim], and the inverse
    transpose returns on blocks of the two extents. *)
Theorem from_pencil_buffer_and_transposes
    (gp : GridPartition num) (direction dimension : Z)
    (tr0 : list (event num)) (self : TransposeWrapper num)
    (data : ndarray) :
  __init__ (T3d gp) direction dimension = (tr0, inr self) ->
  all_real num_is_zero data ->
  let d := Z.to_nat dimension in
  let C := num_components_of self data in
  let inverse :=
    match direction with
    | 0 => transpose_x_to_3d_op
    | 1 => transpose_y_to_3d_op
    | _ => transpose_z_to_3d_op
    end in
  let buffer_shape :=
    if (C =? 1)%nat then _3d_size self
    else _3d_size self ++ [Z.of_nat C] in
  (exists tr,
     trace_of (fromPencil self data)
     = Alloc buffer_shape (dtype_of data) :: tr /\
     Forall (is_transpose_of inverse) tr /\
     (forall out, outcome (fromPencil self data) = inr out ->
        length (transposes tr) = C)) /\
  (wf_array data ->
   has_block_shape d (_pencil_size self) data ->
   fits d (_3d_size self) ->
   returns_on gp inverse
     (map Z.to_nat (_pencil_size self)) (map Z.to_nat (_3d_size self)) ->
   exists tr out,
     fromPencil self data
     = (Alloc buffer_shape (dtype_of data) :: tr, inr out) /\
     transposes tr
     = if (C =? 1)%nat then [Transpose inverse (whole_3d data) None]
       else map (fun c => Transpose inverse (component_3d d data c)
                            (Some c))
              (seq 0 C)).
Proof.
  intros Hinit Hreal d C inverse buffer_shape.
  apply init_success in Hinit
    as (Hdim & Hdir & Hgp & Hd & Hdr & Hr & (a & b & c & Hn & _)
        & (a' & b' & c' & Hp) & _).
  assert (Hrd : reshaper_dim (_data_reshaper self) = _dim self)
    by (rewrite Hr, Hd; reflexivity).
  assert (Hn3 : length (_3d_size self) = 3%nat)
    by (rewrite Hn; reflexivity).
  assert (Hop : from_pencil_op (_direction self) = inverse).
  { rewrite Hdr. unfold from_pencil_op, inverse.
    assert (Hcases : direction = 0 \/ direction = 1 \/ direction = 2)
      by lia.
    destruct Hcases as [-> | [-> | ->]]; reflexivity. }
  unfold all_real in Hreal.
  rewrite transposeFromPencil_exchange, Hreal. cbn [negb].
  rewrite Hop.
  destruct (exchange_allocates self (_3d_size self) inverse data)
    as [tr Htr].
  fold C in Htr. fold buffer_shape in Htr.
  split.
  - exists tr. split; [exact Htr|]. split.
    + pose proof (exchange_transposes self (_3d_size self) inverse data)
        as Hall.
      rewrite Htr in Hall. inversion Hall; assumption.
    + intros out Hout.
      destruct (exchange junk self (_3d_size self) inverse data)
        as [t r] eqn:Hex.
      cbn [trace_of outcome fst snd] in Htr, Hout. subst t r.
      apply exchange_transpose_count in Hex;
        [|exact Hrd|lia|exact Hn3].
      cbn [transposes] in Hex. exact Hex.
  - intros Hwf Hblock Hfits Hret.
    unfold d in Hblock, Hfits.
    rewrite <- Hd in Hdim, Hblock, Hfits. rewrite <- Hgp in Hret.
    destruct (exchange_returns self (_pencil_size self) (_3d_size self)
                inverse data Hrd Hdim Hn3 Hwf Hblock Hfits Hret)
      as (t & out & Hex).
    rewrite Hex in Htr |- *. cbn [trace_of fst] in Htr. subst t.
    exists tr, out. split; [reflexivity|].
    destruct (C =? 1)%nat eqn:HC.
    + apply Nat.eqb_eq in HC.
      apply exchange_single_success in Hex; try assumption.
      cbv zeta in Hex. destruct Hex as (_ & _ & _ & lw & _ & Heq & _).
      unfold buffer_shape in Heq.
      replace (C =? 1)%nat with true in Heq
        by (symmetry; apply Nat.eqb_eq; exact HC).
      injection Heq as ->. reflexivity.
    + apply Nat.eqb_neq in HC.
      destruct (num_components_multi self data HC) as [_ HCeq].
      fold C in HCeq.
      apply exchange_multi_success in Hex; try assumption; [|lia].
      cbv zeta in Hex.
      destruct Hex as (_ & _ & _ & _ & _ & _ & Htrans & _).
      cbn [transposes] in Htrans. rewrite Htrans, <- HCeq.
      unfold d. rewrite <- Hd. reflexivity.
Qed.


End Properties.

(** ** Fresh memory *)

Section FreshMemory.
Context {num : Type}.
Variable num_is_zero : num -> bool.
Variables junk1 junk2 : nat -> scalar num.

Lemma exchange_fresh_memory (self : TransposeWrapper num) size op
    (data : ndarray num) tr out :
  reshaper_dim (_data_reshaper self) = _dim self ->
  _dim self = 2 \/ _dim self = 3 ->
  length size = 3%nat ->
  overwrites (_grid_partition self) op ->
  wf_array data ->
  exchange junk1 self size op data = (tr, inr out) ->
  exists tr', exchange junk2 self size op data = (tr', inr out).
Proof.
  intros Hrd Hdim Hsize Hover Hwf H.
  assert (Hdim0 : 0 <= _dim self) by lia.
  assert (HS3 : length (map Z.to_nat size) = 3%nat)
    by (rewrite length_map; exact Hsize).
  destruct (Nat.eq_dec (num_components_of self data) 1) as [HC|HC].
  - apply exchange_single_success in H; try assumption.
    cbv zeta in H.
    destruct H as (Hnonneg & Hnd & Hones & lw & Hp & _ & ->).
    destruct (Hover _ _ _ (wf_whole_3d data Hwf) (wf_uninitialised junk1 _ _)
                Hp) as [Hfull Hany].
    specialize (Hany (uninitialised junk2 (map Z.to_nat size)
                        (dtype_of data))
                  (wf_uninitialised junk2 _ _) eq_refl eq_refl).
    eexists.
    rewrite (exchange_single_value junk2 self size op data lw);
      try assumption.
    do 3 f_equal.
    rewrite !write_into_full; [reflexivity | exact Hfull |].
    rewrite Hfull. unfold uninitialised. cbn [flat].
    rewrite !length_map. reflexivity.
  - pose proof H as H1.
    apply exchange_multi_success in H1; try assumption.
    cbv zeta in H1.
    set (d := Z.to_nat (_dim self)) in *.
    set (C := nth d (shape data) 0%nat) in *.
    set (S3 := map Z.to_nat size) in *.
    destruct H1 as (Hnonneg & Hnd & Hones & Hdt & Hsh & Hlen & _ & Hchunks).
    assert (Hsame : forall c, (c < C)%nat ->
              exists lw,
                length lw = prod_shape S3 /\
                get_chunk (prod_shape S3) c (flat out) = lw /\
                t3d_primitive (_grid_partition self) op
                  (component_3d d data c)
                  (component_view
                     (uninitialised junk2 (S3 ++ [C]) (dtype_of data)) c)
                = inr lw).
    { intros c Hc. destruct (Hchunks c Hc) as (lw & Hp & Hchunk).
      destruct (component_view_uninitialised junk1 S3 C (dtype_of data) c
                  HS3 Hc) as (Hs1 & Hd1 & Hf1 & Hw1).
      destruct (component_view_uninitialised junk2 S3 C (dtype_of data) c
                  HS3 Hc) as (Hs2 & Hd2 & Hf2 & Hw2).
      destruct (Hover _ _ _ (wf_component_3d d data c Hwf Hnd Hc) Hw1 Hp)
        as [Hfull Hany].
      exists lw. split; [|split].
      - rewrite Hfull. unfold wf_array in Hw1. rewrite Hw1, Hs1.
        reflexivity.
      - rewrite Hchunk. apply write_into_full.
        rewrite <- Hf1. exact Hfull.
      - apply Hany; [exact Hw2 | congruence | congruence]. }
    assert (HC1 : C <> 1%nat).
    { destruct (num_components_multi self data HC) as [_ HCeq].
      fold d C in HCeq. rewrite <- HCeq. exact HC. }
    destruct (exchange_multi_total junk2 self size op data
                Hrd Hdim0 Hsize Hnonneg Hnd HC1 Hones) as (tr' & out' & H2).
    { intros c Hc. destruct (Hsame c Hc) as (lw & _ & _ & Hp). eauto. }
    exists tr'. rewrite H2. do 2 f_equal.
    apply exchange_multi_success in H2; try assumption.
    cbv zeta in H2. fold d C S3 in H2.
    destruct H2 as (_ & _ & _ & Hdt' & Hsh' & Hlen' & _ & Hchunks').
    apply ndarray_eq; [congruence | congruence |].
    apply (chunks_ext (prod_shape S3) C); [exact Hlen' | exact Hlen |].
    intros c Hc.
    destruct (Hsame c Hc) as (lw & Hlw & Hchunk & Hp).
    destruct (Hchunks' c Hc) as (lw' & Hp' & Hchunk').
    rewrite Hp in Hp'. injection Hp' as <-.
    rewrite Hchunk', Hchunk. apply write_into_full.
    destruct (component_view_uninitialised junk2 S3 C (dtype_of data) c
                HS3 Hc) as (Hs2 & _ & Hf2 & Hw2).
    unfold wf_array in Hw2. rewrite Hs2, Hf2 in Hw2. congruence.
Qed.

(** X14. When the transposes of the configured direction overwrite their
    destination, what [numpy.empty] left in the working buffer does not
    show: an array a method returns with one content of fresh memory, it
    returns with any other. *)
Theorem fresh_memory_does_not_show
    (gp : GridPartition num) (direction dimension : Z)
    (tr0 : list (event num)) (self : TransposeWrapper num)
    (data : ndarray num) :
  __init__ (T3d gp) direction dimension = (tr0, inr self) ->
  overwrites gp (to_pencil_op direction) ->
  overwrites gp (from_pencil_op direction) ->
  wf_array data ->
  (forall tr out,
     transposeToPencil num_is_zero junk1 self data = (tr, inr out) ->
     exists tr',
       transposeToPencil num_is_zero junk2 self data = (tr', inr out)) /\
  (forall tr out,
     transposeFromPencil num_is_zero junk1 self data = (tr, inr out) ->
     exists tr',
       transposeFromPencil num_is_zero junk2 self data = (tr', inr out)).
Proof.
  intros Hinit Hto Hfrom Hwf.
  apply init_success in Hinit
    as (Hdim & Hdir & Hgp & Hd & Hdr & Hr & (a & b & c & Hn & _)
        & (a' & b' & c' & Hp) & _).
  assert (Hrd : reshaper_dim (_data_reshaper self) = _dim self)
    by (rewrite Hr, Hd; reflexivity).
  rewrite <- Hgp, <- Hdr in Hto, Hfrom. rewrite <- Hd in Hdim.
  split; intros tr out H.
  - rewrite transposeToPencil_exchange in H |- *.
    destruct (negb _); [discriminate|].
    eapply exchange_fresh_memory; try eassumption.
    rewrite Hp. reflexivity.
  - rewrite transposeFromPencil_exchange in H |- *.
    destruct (negb _); [discriminate|].
    eapply exchange_fresh_memory; try eassumption.
    rewrite Hn. reflexivity.
Qed.
End FreshMemory.

(** * The properties on concrete partitions and data *)

Section Instances.
Import Examples.

(** There and back on one process: two components of a 3 x 2 block in y
    pencils, and one component of a 4 x 4 x 4 block in x pencils. *)
Lemma round_trip_witness :
  (let data := arange float64 [3; 2; 2]%nat 10 in
   wf_array data /\
   outcome (toPencil y_pencils_2d data) = inr data /\
   exists tr', fromPencil y_pencils_2d data = (tr', inr data)) /\
  (let data := arange float64 [4; 4; 4]%nat 0 in
   wf_array data /\
   outcome (toPencil x_pencils_3d data) = inr data /\
   exists tr', fromPencil x_pencils_3d data = (tr', inr data)).
Proof.
  split; intros data.
  - split; [reflexivity|]. split; [reflexivity|].
    apply (round_trip is_zero zeros (single_process (3, 2, 1)) 1 2
             (trace_of (__init__ (T3d (single_process (3, 2, 1))) 1 2))
             y_pencils_2d data
             (trace_of (toPencil y_pencils_2d data)) data).
    + reflexivity.
    + reflexivity.
    + reflexivity.
    + apply single_process_inverse.
    + reflexivity.
  - split; [reflexivity|]. split; [vm_compute; reflexivity|].
    apply (round_trip is_zero zeros (single_process (4, 4, 4)) 0 3
             (trace_of (__init__ (T3d (single_process (4, 4, 4))) 0 3))
             x_pencils_3d data
             (trace_of (toPencil x_pencils_3d data)) data).
    + reflexivity.
    + reflexivity.
    + reflexivity.
    + apply single_process_inverse.
    + vm_compute. reflexivity.
Defined.


Lemma complex_input_rejected_witness :
  let data := with_imaginary_unit [3; 2]%nat in
  toPencil y_pencils_2d data = ([], inl complex_data_error) /\
  fromPencil y_pencils_2d data = ([], inl complex_data_error).
Proof.
  intros data.
  apply (complex_input_rejected is_zero zeros y_pencils_2d data 0 1).
  - cbn. tauto.
  - reflexivity.
Defined.

Lemma illegal_configuration_rejected_witness :
  exists msg,
    __init__ (T3d (quadrant (num := Z))) 2 2 = ([], inl (RuntimeError msg)).
Proof.
  apply (illegal_configuration_rejected (T3d quadrant) 2 2).
  left. lia.
Defined.

Lemma bounds_consistency_witness :
  consistent_pencils (quadrant (num := Z)) /\
  full_pencil quadrant_y_pencils = ([4; 0; 0], [7; 7; 3]) /\
  full_pencil_size quadrant_y_pencils = [4; 8; 4] /\
  length (full_pencil_size quadrant_y_pencils) = 3%nat /\
  extent (fst (full_pencil quadrant_y_pencils))
    (snd (full_pencil quadrant_y_pencils))
  = full_pencil_size quadrant_y_pencils.
Proof.
  assert (H : consistent_pencils (quadrant (num := Z))).
  { unfold consistent_pencils, consistent_block, consistent_bounds,
      in_int32, int32_min, int32_max. cbn. lia. }
  split; [exact H|].
  apply (bounds_consistency quadrant 1 3
           (trace_of (__init__ (T3d (quadrant (num := Z))) 1 3))
           quadrant_y_pencils); [reflexivity | exact H].
Defined.

Lemma one_transpose_per_component_witness :
  let data := arange float64 [3; 2; 2]%nat 10 in
  transposes (trace_of (toPencil y_pencils_2d data))
  = [Transpose transpose_3d_to_y_op (component_3d 2 data 0) (Some 0%nat);
     Transpose transpose_3d_to_y_op (component_3d 2 data 1) (Some 1%nat)]
  /\
  transposes (trace_of (fromPencil y_pencils_2d data))
  = [Transpose transpose_y_to_3d_op (component_3d 2 data 0) (Some 0%nat);
     Transpose transpose_y_to_3d_op (component_3d 2 data 1) (Some 1%nat)].
Proof.
  intros data.
  destruct (one_transpose_per_component is_zero zeros
              (single_process (3, 2, 1)) 1 2
              (trace_of (__init__ (T3d (single_process (3, 2, 1))) 1 2))
              y_pencils_2d data eq_refl eq_refl)
    as [Hto Hfrom].
  - intros H. discriminate H.
  - split.
    + destruct (Hto (trace_of (toPencil y_pencils_2d data)) (inr data)
                  eq_refl) as [_ Hret].
      destruct (Hret data eq_refl) as [Htr _].
      exact Htr.
    + destruct (Hfrom (trace_of (fromPencil y_pencils_2d data)) (inr data)
                  eq_refl) as [_ Hret].
      destruct (Hret data eq_refl) as [Htr _].
      exact Htr.
Defined.

Lemma from_pencil_buffer_and_transposes_witness :
  let data := arange float64 [4; 2; 3]%nat 0 in
  all_real is_zero data /\
  (exists tr,
     trace_of (fromPencil slab_x_pencils data)
     = Alloc [2; 4; 1; 3] float64 :: tr /\
     Forall (is_transpose_of transpose_x_to_3d_op) tr /\
     (forall out, outcome (fromPencil slab_x_pencils data) = inr out ->
        length (transposes tr) = 3%nat)) /\
  (exists tr out,
     fromPencil slab_x_pencils data
     = (Alloc [2; 4; 1; 3] float64 :: tr, inr out) /\
     transposes tr
     = [Transpose transpose_x_to_3d_op (component_3d 2 data 0) (Some 0%nat);
        Transpose transpose_x_to_3d_op (component_3d 2 data 1) (Some 1%nat);
        Transpose transpose_x_to_3d_op (component_3d 2 data 2)
          (Some 2%nat)]).
Proof.
  intros data.
  destruct (from_pencil_buffer_and_transposes is_zero zeros
              slab_process 0 2
              (trace_of (__init__ (T3d (slab_process (num := Z))) 0 2))
              slab_x_pencils data eq_refl eq_refl)
    as [Hbuffer Hreturns].
  split; [reflexivity|]. split; [exact Hbuffer|].
  apply Hreturns.
  - reflexivity.
  - split; [reflexivity|]. right. split; [reflexivity|].
    intros H; discriminate H.
  - split; [repeat constructor; lia | reflexivity].
  - intros src dst Hs _ Hd _. exists (flat src).
    change (refill_block src dst = inr (flat src)).
    unfold refill_block. rewrite Hs, Hd. reflexivity.
Defined.

(** Against C8 as worded: a call of [transposeFromPencil] on data of the
    shape of the pencils that hold one number with an imaginary part
    makes no call at all; no working buffer is allocated and no transpose
    is called. *)
Lemma from_pencil_complex_counterexample :
  let data := with_imaginary_unit [3; 2]%nat in
  wf_array data /\
  has_block_shape 2 (_pencil_size y_pencils_2d) data /\
  fromPencil y_pencils_2d data = ([], inl complex_data_error) /\
  transposes (trace_of (fromPencil y_pencils_2d data)) = [].
Proof.
  intros data.
  split; [reflexivity|].
  split; [split; [reflexivity | left; reflexivity]|].
  split; reflexivity.
Qed.





(** ** The further properties on concrete partitions and data *)


Lemma natural_bounds_consistency_witness :
  consistent_block (get_sz3d (quadrant (num := Z)))
    (get_st3d (quadrant (num := Z))) (get_en3d (quadrant (num := Z))) /\
  extent (_3d_lo quadrant_y_pencils) (_3d_hi quadrant_y_pencils)
  = _3d_size quadrant_y_pencils.
Proof.
  assert (H : consistent_block (get_sz3d (quadrant (num := Z)))
                (get_st3d (quadrant (num := Z)))
                (get_en3d (quadrant (num := Z)))).
  { unfold consistent_block, consistent_bounds, in_int32, int32_min,
      int32_max. cbn. lia. }
  split; [exact H|].
  apply (natural_bounds_consistency quadrant 1 3
           (trace_of (__init__ (T3d (quadrant (num := Z))) 1 3))
           quadrant_y_pencils); [reflexivity | exact H].
Defined.

Lemma accessors_zero_based_witness :
  full_pencil y_pencils_2d = ([0; 0], [2; 1]) /\
  full_pencil_size y_pencils_2d = [3; 2].
Proof.
  apply (accessors_zero_based (single_process (3, 2, 1)) 1 2
           (trace_of (__init__ (T3d (single_process (3, 2, 1))) 1 2))
           y_pencils_2d).
  - reflexivity.
  - repeat constructor;
      unfold has_int32_pred, int32_min, int32_max; lia.
  - repeat constructor;
      unfold has_int32_pred, int32_min, int32_max; lia.
Defined.

Lemma single_component_calls_witness :
  let data := arange float64 [3; 2]%nat 10 in
  let buf := uninitialised zeros [3; 2; 1]%nat float64 in
  exists lw,
    copy_block (whole_3d data) buf = inr lw /\
    trace_of (toPencil y_pencils_2d data)
    = [Alloc [3; 2; 1] float64; ReshapeTo3d data None;
       Transpose transpose_3d_to_y_op (whole_3d data) None;
       ReshapeFrom3d (filled buf lw)].
Proof.
  intros data buf.
  destruct (single_component_calls is_zero zeros
              (single_process (3, 2, 1)) 1 2
              (trace_of (__init__ (T3d (single_process (3, 2, 1))) 1 2))
              y_pencils_2d data eq_refl eq_refl) as [Hto _].
  destruct (Hto (trace_of (toPencil y_pencils_2d data)) data eq_refl)
    as (lw & Hp & Htr & _).
  exists lw. split; [exact Hp | exact Htr].
Defined.

Lemma to_pencil_buffer_and_transposes_witness :
  let data := arange float64 [3; 2; 2]%nat 10 in
  exists tr,
    trace_of (toPencil y_pencils_2d data)
    = Alloc [3; 2; 1; 2] float64 :: tr /\
    Forall (is_transpose_of transpose_3d_to_y_op) tr /\
    (forall out, outcome (toPencil y_pencils_2d data) = inr out ->
       length (transposes tr) = 2%nat).
Proof.
  intros data.
  apply (to_pencil_buffer_and_transposes is_zero zeros
           (single_process (3, 2, 1)) 1 2
           (trace_of (__init__ (T3d (single_process (3, 2, 1))) 1 2))
           y_pencils_2d data); reflexivity.
Defined.

Lemma no_components_no_transposes_witness :
  let data := arange float64 [5; 5; 0]%nat 0 in
  (exists rest,
     trace_of (toPencil y_pencils_2d data)
     = Alloc [3; 2; 1; 0] float64 :: rest /\
     (rest = [] \/ exists buf, rest = [ReshapeFrom3d buf])) /\
  (forall out, outcome (toPencil y_pencils_2d data) = inr out ->
     shape out = [3; 2; 0]%nat /\ flat out = []).
Proof.
  intros data.
  destruct (no_components_no_transposes is_zero zeros
              (single_process (3, 2, 1)) 1 2
              (trace_of (__init__ (T3d (single_process (3, 2, 1))) 1 2))
              y_pencils_2d data eq_refl eq_refl eq_refl eq_refl)
    as [Hto _].
  exact Hto.
Defined.

Lemma round_trip_from_pencil_witness :
  let data := arange float64 [2; 2; 2]%nat 1 in
  let mirrored :=
    mk_ndarray float64 [2; 2; 2]%nat
      [SReal 4; SReal 3; SReal 2; SReal 1;
       SReal 8; SReal 7; SReal 6; SReal 5] in
  outcome (fromPencil mirrored_x_pencils data) = inr mirrored /\
  exists tr', toPencil mirrored_x_pencils mirrored = (tr', inr data).
Proof.
  intros data mirrored.
  split; [reflexivity|].
  apply (round_trip_from_pencil is_zero zeros (mirrored_process (2, 2, 1))
           0 2
           (trace_of (__init__ (T3d (mirrored_process (2, 2, 1))) 0 2))
           mirrored_x_pencils data
           (trace_of (fromPencil mirrored_x_pencils data)) mirrored).
  - reflexivity.
  - reflexivity.
  - reflexivity.
  - apply mirrored_process_inverse.
  - reflexivity.
Defined.

Lemma component_independence_witness :
  let data := arange float64 [2; 2; 2]%nat 1 in
  wf_array data /\
  exists tr_c out_c,
    toPencil mirrored_x_pencils (component_array 2 data 1)
    = (tr_c, inr out_c) /\
    shape out_c = [2; 2]%nat /\
    flat out_c = [SReal 8; SReal 7; SReal 6; SReal 5].
Proof.
  intros data. split; [reflexivity|].
  destruct (component_independence is_zero zeros
              (mirrored_process (2, 2, 1)) 0 2
              (trace_of (__init__ (T3d (mirrored_process (2, 2, 1))) 0 2))
              mirrored_x_pencils data eq_refl)
    as [Hto _].
  - apply reverse_block_overwrites. reflexivity.
  - apply reverse_block_overwrites. reflexivity.
  - reflexivity.
  - reflexivity.
  - intros H. discriminate H.
  - destruct (Hto (trace_of (toPencil mirrored_x_pencils data))
                (mk_ndarray float64 [2; 2; 2]%nat
                   [SReal 4; SReal 3; SReal 2; SReal 1;
                    SReal 8; SReal 7; SReal 6; SReal 5])
                eq_refl 1%nat (le_n 2))
      as (tr_c & out_c & Hc & Hsh & Hfl).
    exists tr_c, out_c. split; [exact Hc|].
    split; [exact Hsh | exact Hfl].
Defined.

Lemma fresh_memory_does_not_show_witness :
  let data := arange float64 [2; 2; 2]%nat 1 in
  exists tr',
    transposeToPencil is_zero sevens mirrored_x_pencils data
    = (tr', outcome (toPencil mirrored_x_pencils data)).
Proof.
  intros data.
  destruct (fresh_memory_does_not_show is_zero zeros sevens
              (mirrored_process (2, 2, 1)) 0 2
              (trace_of (__init__ (T3d (mirrored_process (2, 2, 1))) 0 2))
              mirrored_x_pencils data eq_refl)
    as [Hto _].
  - apply reverse_block_overwrites. reflexivity.
  - apply reverse_block_overwrites. reflexivity.
  - reflexivity.
  - apply (Hto (trace_of (toPencil mirrored_x_pencils data))).
    reflexivity.
Defined.


Lemma result_dtype_witness :
  let data := carange [2; 2]%nat 5 in
  let mirrored :=
    mk_ndarray complex128 [2; 2]%nat
      [SComplex 8 0; SComplex 7 0; SComplex 6 0; SComplex 5 0] in
  outcome (toPencil mirrored_x_pencils data) = inr mirrored /\
  dtype_of mirrored = dtype_of data.
Proof.
  intros data mirrored. split; [reflexivity|].
  destruct (result_dtype is_zero zeros (mirrored_process (2, 2, 1)) 0 2
              (trace_of (__init__ (T3d (mirrored_process (2, 2, 1))) 0 2))
              mirrored_x_pencils eq_refl) as [Hto _].
  apply (Hto data (trace_of (toPencil mirrored_x_pencils data)) mirrored).
  reflexivity.
Defined.

End Instances.
